(** * Verification of [scripts/trailing_leg_count.py]

    A shallow embedding of the spreadsheet reader and of the weighted /
    trailing-window aggregation pipeline, and the properties of the code
    that the specification states.

    Python values are modelled as the code has them:
    - [str] as [string]; a cell value is [option string] because the text of
      an empty [<v/>] node is [None];
    - [int] as [Z]; [float] as the primitive binary64 [float] of Rocq, with
      the IEEE operations Python uses;
    - [dict] as an insertion-ordered association list with unique keys;
    - an exception as the [Raise] branch of [result];
    - the generator [iter_rows] as the list of the outcomes of its successive
      [next] calls. *)

From Stdlib Require Import ZArith List String Ascii Bool Lia Floats.
From Stdlib Require Import Permutation Sorted.
Import ListNotations.
Abbreviation length := List.length.
Local Open Scope string_scope.
Local Open Scope list_scope.
Local Open Scope Z_scope.

Set Implicit Arguments.
Set Warnings "-inexact-float".

(** * Exceptions and the error monad *)

Inductive exn : Type :=
| KeyError
| IndexError
| ValueError
| TypeError
| ZeroDivisionError
| StopIteration.

Inductive result (A : Type) : Type :=
| Ok (a : A)
| Raise (e : exn).
Arguments Ok {A} a.
Arguments Raise {A} e.

Definition bind {A B} (m : result A) (k : A -> result B) : result B :=
  match m with
  | Ok a => k a
  | Raise e => Raise e
  end.

Notation "x <- m ;; k" := (bind m (fun x => k))
  (at level 61, m at next level, right associativity).
Notation "' p <- m ;; k" := (bind m (fun x => let 'p := x in k))
  (at level 61, p pattern, m at next level, right associativity).

(** * Python built-ins *)

Module Py.

(** ** Equality on keys ([__eq__]) *)

Class Eq (K : Type) : Type := {
  eqb : K -> K -> bool;
  eqb_spec : forall x y, reflect (x = y) (eqb x y)
}.

Lemma eqb_refl {K} `{Eq K} (x : K) : eqb x x = true.
Proof. destruct (eqb_spec x x); congruence. Qed.

Lemma eqb_eq {K} `{Eq K} (x y : K) : eqb x y = true <-> x = y.
Proof. destruct (eqb_spec x y); split; congruence. Qed.

Lemma eqb_neq {K} `{Eq K} (x y : K) : eqb x y = false <-> x <> y.
Proof. destruct (eqb_spec x y); split; congruence. Qed.

#[global] Instance Eq_string : Eq string :=
  {| eqb := String.eqb; eqb_spec := String.eqb_spec |}.

#[global] Instance Eq_Z : Eq Z :=
  {| eqb := Z.eqb; eqb_spec := Z.eqb_spec |}.

Definition option_eqb {K} `{Eq K} (x y : option K) : bool :=
  match x, y with
  | Some a, Some b => eqb a b
  | None, None => true
  | _, _ => false
  end.

Lemma option_eqb_spec {K} `{Eq K} (x y : option K) :
  reflect (x = y) (option_eqb x y).
Proof.
  destruct x as [a|], y as [b|]; simpl; try (constructor; congruence).
  destruct (eqb_spec a b); constructor; congruence.
Qed.

#[global] Instance Eq_option {K} `{Eq K} : Eq (option K) :=
  {| eqb := option_eqb; eqb_spec := option_eqb_spec |}.

Definition prod_eqb {K L} `{Eq K} `{Eq L} (x y : K * L) : bool :=
  eqb (fst x) (fst y) && eqb (snd x) (snd y).

Lemma prod_eqb_spec {K L} `{Eq K} `{Eq L} (x y : K * L) :
  reflect (x = y) (prod_eqb x y).
Proof.
  destruct x as [a b], y as [c d]; unfold prod_eqb; simpl.
  destruct (eqb_spec a c), (eqb_spec b d); constructor; congruence.
Qed.

#[global] Instance Eq_prod {K L} `{Eq K} `{Eq L} : Eq (K * L) :=
  {| eqb := prod_eqb; eqb_spec := prod_eqb_spec |}.

(** [==] on lists compares the lengths and the elements in order. *)
Fixpoint list_eqb {K} `{Eq K} (x y : list K) : bool :=
  match x, y with
  | [], [] => true
  | a :: x', b :: y' => eqb a b && list_eqb x' y'
  | _, _ => false
  end.

Lemma list_eqb_spec {K} `{Eq K} (x y : list K) :
  reflect (x = y) (list_eqb x y).
Proof.
  revert y; induction x as [|a x IH]; intros [|b y]; simpl;
    try (constructor; congruence).
  destruct (eqb_spec a b); simpl; [|constructor; congruence].
  destruct (IH y); constructor; congruence.
Qed.

#[global] Instance Eq_list {K} `{Eq K} : Eq (list K) :=
  {| eqb := list_eqb; eqb_spec := list_eqb_spec |}.

(** ** Truth value of a cell: [None] and [''] are false *)

Definition truthy_str (v : option string) : bool :=
  match v with
  | None => false
  | Some s => negb (String.eqb s "")
  end.

(** ** Floats: truth value and true division

    [bool(x)] is [x != 0.0] (so a NaN is true and both zeros are false);
    [x / y] raises [ZeroDivisionError] exactly when [y == 0.0]. *)

Definition truthy_float (x : float) : bool := negb (PrimFloat.eqb x 0%float).

Definition truediv (x y : float) : result float :=
  if PrimFloat.eqb y 0%float then Raise ZeroDivisionError
  else Ok (PrimFloat.div x y).

(** [float(n)] for an integer [n]: the nearest binary64, ties to even. *)
Definition float_of_int (n : Z) : float :=
  SF2Prim (binary_normalize prec emax n 0 false).

(** [x / n] for an integer [n]: [n] is converted first, and the division
    raises exactly when [n] is [0], the only integer whose float is zero. *)
Definition truediv_int (x : float) (n : Z) : result float :=
  if Z.eqb n 0 then Raise ZeroDivisionError
  else Ok (PrimFloat.div x (float_of_int n)).

(** ** Sequence indexing [l[i]], negative indices counting from the end *)

Definition index {A} (l : list A) (i : Z) : result A :=
  let n := Z.of_nat (length l) in
  let j := if i <? 0 then i + n else i in
  if (j <? 0) || (n <=? j) then Raise IndexError
  else match nth_error l (Z.to_nat j) with
       | Some a => Ok a
       | None => Raise IndexError
       end.

(** ** Text to number: [int(s)] and [float(s)]

    The accepted syntax is Python's for ASCII text; a text with other
    characters is outside this model.  Surrounding white space (tab, line
    feed, vertical tab, form feed, carriage return, space) is dropped, a sign
    may come first, digits may be grouped by single underscores; [float] also
    reads a fraction, a decimal exponent and the words inf, infinity and nan
    in any case.  [None] raises [TypeError], any other text [ValueError], as
    does for [int] a text of more than 4300 digits, the default limit of
    Python 3.11 and later.  The decimal value is rounded to the nearest
    binary64, ties to even, too large a value giving an infinity. *)

Definition is_space (c : ascii) : bool :=
  let n := nat_of_ascii c in
  ((9 <=? n) && (n <=? 13) || (n =? 32))%nat.

Fixpoint lstrip (cs : list ascii) : list ascii :=
  match cs with
  | c :: cs' => if is_space c then lstrip cs' else cs
  | [] => []
  end.

Definition strip (cs : list ascii) : list ascii :=
  rev (lstrip (rev (lstrip cs))).

Definition digit_of (c : ascii) : option Z :=
  let n := nat_of_ascii c in
  if ((48 <=? n) && (n <=? 57))%nat then Some (Z.of_nat n - 48) else None.

Definition lower (c : ascii) : ascii :=
  let n := nat_of_ascii c in
  if ((65 <=? n) && (n <=? 90))%nat then ascii_of_nat (n + 32) else c.

(** The longest run of digits at the head of [cs], read as a number, with
    their count and the rest of the text; [prev] tells that the character
    before [cs] was a digit, where an underscore may follow. *)
Fixpoint read_digits (prev : bool) (acc : Z) (n : nat) (cs : list ascii)
  : Z * nat * list ascii :=
  match cs with
  | c :: cs' =>
      match digit_of c with
      | Some d => read_digits true (10 * acc + d) (S n) cs'
      | None =>
          if prev && Ascii.eqb c "_"
          then match cs' with
               | c' :: _ =>
                   match digit_of c' with
                   | Some _ => read_digits false acc n cs'
                   | None => (acc, n, cs)
                   end
               | [] => (acc, n, cs)
               end
          else (acc, n, cs)
      end
  | [] => (acc, n, cs)
  end.

Definition read_sign (cs : list ascii) : bool * list ascii :=
  match cs with
  | c :: cs' =>
      if Ascii.eqb c "-" then (true, cs')
      else if Ascii.eqb c "+" then (false, cs')
      else (false, cs)
  | [] => (false, cs)
  end.

Definition int (v : option string) : result Z :=
  match v with
  | None => Raise TypeError
  | Some s =>
      let '(neg, cs) := read_sign (strip (list_ascii_of_string s)) in
      match read_digits false 0 0 cs with
      | (_, O, _) => Raise ValueError
      | (m, n, []) =>
          if (4300 <? n)%nat then Raise ValueError
          else Ok (if neg then - m else m)
      | (_, _, _ :: _) => Raise ValueError
      end
  end.

(** [m * 10 ^ e] rounded to binary64.  For a negative exponent the quotient
    is taken with 1100 more binary digits than the format can hold and one
    sticky digit for the remainder, so that the rounding sees on which side
    of every midpoint the exact value lies. *)
Definition round_decimal (neg : bool) (m e : Z) : float :=
  let sf :=
    if m =? 0 then S754_zero false
    else if 0 <=? e then binary_normalize prec emax (m * 10 ^ e) 0 false
    else
      let d := 10 ^ (- e) in
      let q := Z.shiftl m 1100 / d in
      let sticky := if Z.shiftl m 1100 mod d =? 0 then 0 else 1 in
      binary_normalize prec emax (2 * q + sticky) (- 1101) false in
  let x := SF2Prim sf in
  if neg then PrimFloat.opp x else x.

Definition read_exponent (cs : list ascii) : option (Z * list ascii) :=
  match cs with
  | c :: cs' =>
      if Ascii.eqb (lower c) "e"
      then let '(neg, cs1) := read_sign cs' in
           match read_digits false 0 0 cs1 with
           | (_, O, _) => None
           | (x, _, rest) => Some (if neg then - x else x, rest)
           end
      else Some (0, cs)
  | [] => Some (0, cs)
  end.

Definition float (v : option string) : result float :=
  match v with
  | None => Raise TypeError
  | Some s =>
      let '(neg, cs) := read_sign (strip (list_ascii_of_string s)) in
      let word := string_of_list_ascii (map lower cs) in
      if String.eqb word "inf" || String.eqb word "infinity"
      then Ok (if neg then neg_infinity else infinity)
      else if String.eqb word "nan" then Ok nan
      else
        let '(ip, ni, cs1) := read_digits false 0 0 cs in
        let '(m, nf, cs2) :=
          match cs1 with
          | c :: cs' =>
              if Ascii.eqb c "."
              then let '(m, nf, r) := read_digits false ip 0 cs' in (m, nf, r)
              else (ip, O, cs1)
          | [] => (ip, O, cs1)
          end in
        match (ni + nf)%nat, read_exponent cs2 with
        | O, _ => Raise ValueError
        | _, Some (x, []) => Ok (round_decimal neg m (x - Z.of_nat nf))
        | _, _ => Raise ValueError
        end
  end.

(** ** Sorting: [sorted(l, key=..., reverse=...)]

    [lt x y] is [key(x) < key(y)], the only comparison the sort makes.  The
    sort is stable; with [reverse] the list is reversed, sorted and reversed
    again, as [list.sort] does, which keeps equal elements in their order.
    The order of the result of any stable sort is the same whenever [<] is a
    strict weak order on the keys (for floats: when none is a NaN), so the
    insertion sort below stands for the library's merge sort on such keys.
    On keys with a NaN the two may order a list differently; every statement
    below about the order of a result of [sorted] on floats assumes that no
    key is a NaN, or is about one short list on which the library's sort,
    which finds the list to be a single run, leaves the same order. *)

Fixpoint insort {A} (lt : A -> A -> bool) (x : A) (l : list A) : list A :=
  match l with
  | [] => [x]
  | y :: l' => if lt y x then y :: insort lt x l' else x :: l
  end.

Definition sort_asc {A} (lt : A -> A -> bool) (l : list A) : list A :=
  fold_right (insort lt) [] l.

Definition sorted {A} (lt : A -> A -> bool) (reverse : bool) (l : list A)
  : list A :=
  if reverse then rev (sort_asc lt (rev l)) else sort_asc lt l.

(** [<] on pairs of integers is lexicographic. *)
Definition pair_ltb (x y : Z * Z) : bool :=
  (fst x <? fst y) || ((fst x =? fst y) && (snd x <? snd y)).

(** ** Strings and sequences *)

Fixpoint is_prefix (p s : list ascii) : bool :=
  match p, s with
  | [], _ => true
  | a :: p', b :: s' => Ascii.eqb a b && is_prefix p' s'
  | _ :: _, [] => false
  end.

(** [s.endswith(suffix)] *)
Definition endswith (s suffix : string) : bool :=
  is_prefix (rev (list_ascii_of_string suffix)) (rev (list_ascii_of_string s)).

(** [enumerate(l)], counting from [i] *)
Fixpoint enumerate_from {A} (i : Z) (l : list A) : list (Z * A) :=
  match l with
  | [] => []
  | a :: l' => (i, a) :: enumerate_from (i + 1) l'
  end.

Definition enumerate {A} (l : list A) : list (Z * A) := enumerate_from 0 l.

(** ** Iteration

    A generator is the list of the outcomes of its [next] calls: the rows it
    yields in order, ended by the exception its body raises, if any. *)

Definition next {A} (g : list (result A)) : result (A * list (result A)) :=
  match g with
  | [] => Raise StopIteration
  | Ok a :: g' => Ok (a, g')
  | Raise e :: _ => Raise e
  end.

(** [for a in g: st = body a st] over a generator *)
Fixpoint for_each {A S} (g : list (result A)) (body : A -> S -> result S)
  (st : S) : result S :=
  match g with
  | [] => Ok st
  | Ok a :: g' => st' <- body a st ;; for_each g' body st'
  | Raise e :: _ => Raise e
  end.

(** [for a in l: st = body a st] over a list *)
Fixpoint for_in {A S} (l : list A) (body : A -> S -> result S) (st : S)
  : result S :=
  match l with
  | [] => Ok st
  | a :: l' => st' <- body a st ;; for_in l' body st'
  end.

(** [sep.join(items)]: an item that is not a string raises [TypeError]. *)
Fixpoint join (sep : string) (items : list (option string)) : result string :=
  match items with
  | [] => Ok ""%string
  | None :: _ => Raise TypeError
  | Some s :: [] => Ok s
  | Some s :: (_ :: _) as rest =>
      r <- join sep rest ;; Ok (s ++ sep ++ r)%string
  end.

(** A comprehension [[f a for a in l]] *)
Fixpoint comprehension {A B} (f : A -> result B) (l : list A)
  : result (list B) :=
  match l with
  | [] => Ok []
  | a :: l' => b <- f a ;; bs <- comprehension f l' ;; Ok (b :: bs)
  end.

End Py.

(** * Dictionaries

    A [dict] keeps its keys in the order of their first insertion; assigning
    to a key that is present replaces the value in place. *)

Module Dict.
Section Dict.
Context {K V : Type} `{Py.Eq K}.

Definition t : Type := list (K * V).

Fixpoint get (d : list (K * V)) (k : K) : option V :=
  match d with
  | [] => None
  | (k', v) :: d' => if Py.eqb k' k then Some v else get d' k
  end.

(** [d[k]] *)
Definition getitem (d : list (K * V)) (k : K) : result V :=
  match get d k with
  | Some v => Ok v
  | None => Raise KeyError
  end.

(** [d[k] = v] *)
Fixpoint set (d : list (K * V)) (k : K) (v : V) : list (K * V) :=
  match d with
  | [] => [(k, v)]
  | (k', v') :: d' =>
      if Py.eqb k' k then (k', v) :: d' else (k', v') :: set d' k v
  end.

Definition keys (d : list (K * V)) : list K := map fst d.

(** [d[k]] on a [defaultdict]: a missing key reads as the default (and is
    inserted by the assignment that follows every such read in this
    program). *)
Definition get_default (dflt : V) (d : list (K * V)) (k : K) : V :=
  match get d k with
  | Some v => v
  | None => dflt
  end.

(** The keys after [d[k] = v]. *)
Definition add_key (ks : list K) (k : K) : list K :=
  if existsb (Py.eqb k) ks then ks else ks ++ [k].

End Dict.
End Dict.

(** * The program: [scripts/trailing_leg_count.py] *)

Local Open Scope float_scope.

(** A cell value of a row: the text of the cell, [None] for an empty value
    node. *)
Definition row : Type := list (option string).

(** A [<c>] element of the sheet: its [t] attribute ([c.get('t')]) and its
    first [<v>] child ([c.find(v)]) with that child's [text]. *)
Record cell : Type := {
  c_t : option string;
  c_v : option (option string)
}.

(** An element as [iterparse] delivers it at its end event: its tag and its
    [<c>] children ([elem.findall(c)]). *)
Record element : Type := {
  tag : string;
  cells : list cell
}.

(** The archive: member name to the end events of its XML content. *)
Definition archive : Type := list (string * list element).

Definition SHEETS : list (string * string) :=
  [("All", "worksheets/sheet1.xml"); ("Live", "worksheets/sheet2.xml")].

(** [SHARED = [t.text or '' for t in root.iter(t)]] *)
Definition load_shared (texts : list (option string)) : list string :=
  map (fun t => match t with
                | Some s => s
                | None => ""
                end) texts.

(** A period is a pair (year, month). *)
Abbreviation period := (Z * Z)%type.

Section Reader.
Variable SHARED : list string.

(** Line 25: [val = v.text if v is not None else ''] *)
Definition raw_text (c : cell) : option string :=
  match c_v c with
  | Some text => text
  | None => Some ""
  end.

(** Lines 24-27: the value of one cell. *)
Definition cell_value (c : cell) : result (option string) :=
  let val := raw_text c in
  if Py.eqb (c_t c) (Some "s") && Py.truthy_str val
  then i <- Py.int val ;; s <- Py.index SHARED i ;; Ok (Some s)
  else Ok val.

(** Line 21: the elements that are turned into rows. *)
Definition is_row (elem : element) : bool := Py.endswith (tag elem) "row".

(** Lines 20-30: the rows of the end events; [elem.clear()] empties only the
    element whose row has just been yielded. *)
Fixpoint rows_of (events : list element) : list (result row) :=
  match events with
  | [] => []
  | elem :: events' =>
      if is_row elem
      then match Py.comprehension cell_value (cells elem) with
           | Ok r => Ok r :: rows_of events'
           | Raise e => [Raise e]
           end
      else rows_of events'
  end.

Definition iter_rows (zf : archive) (sheet : string) : list (result row) :=
  match (path <- Dict.getitem SHEETS sheet ;;
         Dict.getitem zf ("xl/" ++ path)%string) with
  | Ok data => rows_of data
  | Raise e => [Raise e]
  end.

(** [idx = {h: i for i, h in enumerate(header)}] *)
Definition column_index (header : row) : list (option string * Z) :=
  fold_left (fun d ih => Dict.set d (snd ih) (fst ih)) (Py.enumerate header) [].

(** [row[idx[name]]] *)
Definition column (idx : list (option string * Z)) (r : row) (name : string)
  : result (option string) :=
  i <- Dict.getitem idx (Some name) ;; Py.index r i.

(** The accumulator [{'ws': ..., 'cnt': ...}] of one period. *)
Record acc : Type := { ws : float; cnt : float }.

Definition acc0 : acc := {| ws := 0; cnt := 0 |}.

(** Lines 38-41 and 80-83: the period, the count and the average of a row. *)
Definition read_row (idx : list (option string * Z)) (r : row)
  : result (period * (float * float)) :=
  y <- (c <- column idx r "bet_year" ;; Py.int c) ;;
  m <- (c <- column idx r "bet_month" ;; Py.int c) ;;
  count <- (c <- column idx r "count_of_bets" ;; Py.float c) ;;
  val <- column idx r "avg_leg_count_inclusiveofstraightbets" ;;
  avg <- (if Py.truthy_str val then Py.float val else Ok 0) ;;
  Ok ((y, m), (count, avg)).

(** Lines 42-43 and 84-85: [stats[ym]['ws'] += avg * count] and
    [stats[ym]['cnt'] += count] on a dictionary with default [acc0]. *)
Definition accumulate (stats : list (period * acc)) (ym : period)
  (count avg : float) : list (period * acc) :=
  let d := Dict.get_default acc0 stats ym in
  Dict.set stats ym {| ws := ws d + avg * count; cnt := cnt d + count |}.

Definition monthly_weighted_avg (zf : archive) (sheet : string)
  : result (list (period * float)) :=
  let rows := iter_rows zf sheet in
  '(header, rows) <- Py.next rows ;;
  let idx := column_index header in
  stats <- Py.for_each rows (fun r stats =>
      '(ym, (count, avg)) <- read_row idx r ;;
      Ok (accumulate stats ym count avg)) [] ;;
  Py.comprehension (fun '(ym, d) =>
      v <- (if Py.truthy_float (cnt d) then Py.truediv (ws d) (cnt d)
            else Ok 0) ;;
      Ok (ym, v)) stats.

(** The state of the loop of [trailing_average]. *)
Record trailing_state : Type := {
  q : list float;
  total : float;
  result_map : list (period * float)
}.

Definition trailing_step (series : list (period * float)) (window : Z)
  (ym : period) (st : trailing_state) : result trailing_state :=
  avg <- Dict.getitem series ym ;;
  let q1 := q st ++ [avg] in
  let total1 := total st + avg in
  '(q2, total2) <-
    (if Z.of_nat (length q1) >? window
     then match q1 with
          | x :: q' => Ok (q', total1 - x)
          | [] => Raise IndexError
          end
     else Ok (q1, total1)) ;;
  v <- Py.truediv_int total2 (Z.of_nat (length q2)) ;;
  Ok {| q := q2; total := total2; result_map := Dict.set (result_map st) ym v |}.

Definition trailing_average (series : list (period * float)) (window : Z)
  : result (list (period * float)) :=
  st <- Py.for_in (Py.sorted Py.pair_ltb false (Dict.keys series))
          (trailing_step series window)
          {| q := []; total := 0; result_map := [] |} ;;
  Ok (result_map st).

(** Lines 65-66: the category and the handle of a row. *)
Definition read_handle (idx : list (option string * Z)) (r : row)
  : result (option string * float) :=
  name <- column idx r "name" ;;
  h <- column idx r "total_bet_handle" ;;
  handle <- (if Py.truthy_str h then Py.float h else Ok 0) ;;
  Ok (name, handle).

(** Line 67: [totals[name] += handle] on a dictionary with default [0.0]. *)
Definition add_handle (totals : list (option string * float))
  (name : option string) (handle : float) : list (option string * float) :=
  Dict.set totals name (Dict.get_default 0 totals name + handle).

(** Line 68: [key=lambda x: x[1]], compared by [<]. *)
Definition by_total (x y : option string * float) : bool :=
  PrimFloat.ltb (snd x) (snd y).

Definition top_operators (zf : archive) (header : row)
  : result (list (option string)) :=
  let idx := column_index header in
  totals <- Py.for_each (iter_rows zf "All") (fun r totals =>
      if Py.eqb r header then Ok totals
      else
        '(name, handle) <- read_handle idx r ;;
        Ok (add_handle totals name handle))
    [] ;;
  let top := firstn 10 (Py.sorted by_total true totals) in
  Ok (map fst top).

Definition operator_trailing (zf : archive) (header : row)
  (operators : list (option string))
  : result (list (option string * list (period * float))) :=
  let idx := column_index header in
  let rows := iter_rows zf "All" in
  '(_, rows) <- Py.next rows ;;
  stats <- Py.for_each rows (fun r stats =>
      name <- column idx r "name" ;;
      if negb (existsb (Py.eqb name) operators) then Ok stats
      else
        '(ym, (count, avg)) <- read_row idx r ;;
        Ok (Dict.set stats name
              (accumulate (Dict.get_default [] stats name) ym count avg)))
    [] ;;
  Py.for_in operators (fun op trailing =>
      series <- Py.comprehension (fun '(ym, d) =>
                    v <- Py.truediv (ws d) (cnt d) ;; Ok (ym, v))
                  (Dict.get_default [] stats op) ;;
      t <- trailing_average series 12 ;;
      Ok (Dict.set trailing op t)) [].

End Reader.

(** ** The main block (lines 92-120): the values that are printed *)

(** Line 96: [{ym: all_month[ym] - live_month.get(ym, 0.0) for ym in
    all_month}] *)
Definition nonlive_month (all_month live_month : list (period * float))
  : result (list (period * float)) :=
  Py.for_in (Dict.keys all_month) (fun ym d =>
      a <- Dict.getitem all_month ym ;;
      Ok (Dict.set d ym (a - Dict.get_default 0 live_month ym))) [].

(** [l[-3:]] *)
Definition last3 {A} (l : list A) : list A := skipn (length l - 3) l.

(** Lines 94-108 without the printing: for the last three periods, the
    values that are rounded and printed. *)
Definition main_months (SHARED : list string) (zf : archive)
  : result (list (period * (float * float * float))) :=
  all_month <- monthly_weighted_avg SHARED zf "All" ;;
  live_month <- monthly_weighted_avg SHARED zf "Live" ;;
  nonlive <- nonlive_month all_month live_month ;;
  all_trail <- trailing_average all_month 12 ;;
  live_trail <- trailing_average live_month 12 ;;
  non_trail <- trailing_average nonlive 12 ;;
  Py.comprehension (fun ym =>
      a <- Dict.getitem all_trail ym ;;
      Ok (ym, (a, Dict.get_default 0 live_trail ym,
               Dict.get_default 0 non_trail ym)))
    (last3 (Py.sorted Py.pair_ltb false (Dict.keys all_trail))).

(** Lines 110-120: the text joined for line 113 and, for every top category,
    its last three months with their trailing values, which are rounded and
    printed. *)
Definition main_operators (SHARED : list string) (zf : archive)
  : result (string * list (option string * list (period * float))) :=
  '(header, _) <- Py.next (iter_rows SHARED zf "All") ;;
  top_ops <- top_operators SHARED zf header ;;
  line <- Py.join ", " top_ops ;;
  op_trailing <- operator_trailing SHARED zf header top_ops ;;
  report <- Py.comprehension (fun op =>
      series <- Dict.getitem op_trailing op ;;
      months <- Py.comprehension (fun ym =>
                    v <- Dict.getitem series ym ;; Ok (ym, v))
                  (last3 (Py.sorted Py.pair_ltb false (Dict.keys series))) ;;
      Ok (op, months)) top_ops ;;
  Ok (line, report).

(** The main block: lines 94-108, then lines 110-120. *)
Definition main (SHARED : list string) (zf : archive)
  : result (list (period * (float * float * float)) *
            (string * list (option string * list (period * float)))) :=
  months <- main_months SHARED zf ;;
  operators <- main_operators SHARED zf ;;
  Ok (months, operators).

(** * Vocabulary of the properties *)

(** [before x y l]: an occurrence of [x] comes before an occurrence of [y]. *)
Definition before {A} (x y : A) (l : list A) : Prop :=
  exists l1 l2 l3, l = l1 ++ x :: l2 ++ y :: l3.

(** The running total of [trailing_average] after [n] periods: each value is
    added in turn, and from the moment the queue would hold more than [w]
    values the oldest one is subtracted. *)
Fixpoint total_after (w : nat) (vs : list float) (n : nat) : float :=
  match n with
  | O => 0
  | S i =>
      let t := total_after w vs i + nth i vs 0 in
      if (w <=? i)%nat then t - nth (i - w) vs 0 else t
  end.

(** The value stored for the [i]-th period: the running total over the
    number of values in the queue. *)
Definition trailing_value (w : nat) (vs : list float) (i : nat) : float :=
  total_after w vs (S i) / Py.float_of_int (Z.of_nat (Nat.min (S i) w)).

(** What the specification takes the [i]-th trailing value to be: the sum,
    from the oldest to the newest, of the values in the window that ends at
    [i], over their number. *)
Definition window_sum (w : nat) (vs : list float) (i : nat) : float :=
  fold_left PrimFloat.add (skipn (S i - w) (firstn (S i) vs)) 0.

Definition window_mean (w : nat) (vs : list float) (i : nat) : float :=
  window_sum w vs i / Py.float_of_int (Z.of_nat (Nat.min (S i) w)).

(** Three months of raw values, used with a window of two. *)
Definition series3 : list (period * float) :=
  [((2024, 1)%Z, 0.1); ((2024, 2)%Z, 0.2); ((2024, 3)%Z, 0.3)].

(** The distinct elements of [l], in the order of their first occurrence. *)
Definition first_seen {K} `{Py.Eq K} (l : list K) : list K :=
  fold_left Dict.add_key l [].

(** Accumulation into a dictionary with a default: [d[k] = f(d[k], x)]. *)
Definition accum_step {K V X} `{Py.Eq K} (f : V -> X -> V) (dflt : V)
  (d : list (K * V)) (kx : K * X) : list (K * V) :=
  Dict.set d (fst kx) (f (Dict.get_default dflt d (fst kx)) (snd kx)).

(** The values recorded under the key [k], in stream order. *)
Definition values_of {K X} `{Py.Eq K} (k : K) (l : list (K * X)) : list X :=
  map snd (filter (fun kx => Py.eqb (fst kx) k) l).

(** [weighted_sum(p)]: the sum over the rows of [p], in stream order, of
    metric * weight; a row is (period, (weight, metric)). *)
Definition weighted_sum (p : period) (recs : list (period * (float * float)))
  : float :=
  fold_left (fun s ca => s + snd ca * fst ca) (values_of p recs) 0.

(** [weight_total(p)]: the sum over the rows of [p] of the weights. *)
Definition weight_total (p : period) (recs : list (period * (float * float)))
  : float :=
  fold_left (fun s ca => s + fst ca) (values_of p recs) 0.

(** One more row in the accumulator of its period (lines 42-43). *)
Definition acc_add (d : acc) (ca : float * float) : acc :=
  {| ws := ws d + snd ca * fst ca; cnt := cnt d + fst ca |}.

(** Line 44: the value of a period. *)
Definition finalize (d : acc) : float :=
  if PrimFloat.eqb (cnt d) 0 then 0 else ws d / cnt d.

(** A sheet whose rows hold plain text cells, followed by the end event of
    the enclosing element. *)
Definition text_cell (s : string) : cell :=
  {| c_t := None; c_v := Some (Some s) |}.

(** A cell with no value node: its text reads as the empty string. *)
Definition empty_cell : cell := {| c_t := None; c_v := None |}.

Definition cells_row (cs : list cell) : element :=
  {| tag := "{http://schemas.openxmlformats.org/spreadsheetml/2006/main}row";
     cells := cs |}.

Definition text_row (l : list string) : element := cells_row (map text_cell l).

Definition sheet_of (rows : list (list string)) : list element :=
  map text_row rows ++
  [{| tag := "{http://schemas.openxmlformats.org/spreadsheetml/2006/main}sheetData";
      cells := [] |}].

Definition columns : list string :=
  ["bet_year"; "bet_month"; "count_of_bets";
   "avg_leg_count_inclusiveofstraightbets"; "name"; "total_bet_handle"].

(** The scenario of the specification: two rows of January 2024, with counts
    2 and 1 and averages 10 and 4. *)
Definition zf_scenario : archive :=
  [("xl/worksheets/sheet1.xml",
    sheet_of [columns; ["2024"; "1"; "2"; "10"; "A"; "5"];
              ["2024"; "1"; "1"; "4"; "B"; "5"]])].

(** The columns [monthly_weighted_avg] reads. *)
Definition required_columns : list string :=
  ["bet_year"; "bet_month"; "count_of_bets";
   "avg_leg_count_inclusiveofstraightbets"].

(** A data row whose weight cell is empty. *)
Definition zf_empty_weight : archive :=
  [("xl/worksheets/sheet1.xml",
    [text_row columns;
     cells_row [text_cell "2024"; text_cell "1"; empty_cell; text_cell "10";
                text_cell "A"; text_cell "5"]])].

(** A header without the required columns and no data row. *)
Definition zf_header_only : archive :=
  [("xl/worksheets/sheet1.xml", sheet_of [["name"; "total_bet_handle"]])].

(** One row of category A with a count of zero. *)
Definition zf_zero_weight : archive :=
  [("xl/worksheets/sheet1.xml",
    sheet_of [columns; ["2024"; "1"; "0"; "10"; "A"; "5"]])].

(** A cell flagged as a shared-string reference. *)
Definition shared_cell (v : option (option string)) : cell :=
  {| c_t := Some "s"; c_v := v |}.

(** A sheet whose data rows are shorter and longer than its header. *)
Definition zf_ragged : archive :=
  [("xl/worksheets/sheet1.xml",
    sheet_of [columns; ["2024"; "1"; "2"; "10"; "A"];
              ["2024"; "1"; "1"; "4"; "B"; "5"; "extra"]])].

(** The order of the floats that are not NaN, read off a triple of integers
    compared lexicographically. *)
Definition sf_key (s : spec_float) : Z * Z * Z :=
  match s with
  | S754_zero _ => (0, 0, 0)%Z
  | S754_nan => (0, 0, 0)%Z
  | S754_infinity false => (2, 0, 0)%Z
  | S754_infinity true => (-2, 0, 0)%Z
  | S754_finite false m e => (1, e, Zpos m)%Z
  | S754_finite true m e => (-1, - e, Zneg m)%Z
  end.

Definition key_lt (a b : Z * Z * Z) : Prop :=
  let '(a1, a2, a3) := a in
  let '(b1, b2, b3) := b in
  (a1 < b1 \/ (a1 = b1 /\ (a2 < b2 \/ (a2 = b2 /\ a3 < b3))))%Z.

(** The total of a category: the sum of its handles, in stream order. *)
Definition category_total (c : option string)
  (recs : list (option string * float)) : float :=
  fold_left PrimFloat.add (values_of c recs) 0.

(** [a] is first encountered before [b]: [a] occurs at a place before which
    [b] does not occur. *)
Definition first_before {A} (a b : A) (l : list A) : Prop :=
  a <> b /\ exists l1 l2, l = l1 ++ a :: l2 /\ ~ In b l1.

(** A row stream without the rows equal to the header. *)
Definition drop_header_rows (header : row) (g : list (result row))
  : list (result row) :=
  filter (fun o => match o with
                   | Ok r => negb (Py.eqb r header)
                   | Raise _ => true
                   end) g.

(** Three categories, the first two with equal totals, the header repeated
    among the data rows. *)
Definition zf_ties : archive :=
  [("xl/worksheets/sheet1.xml",
    sheet_of [columns;
              ["2024"; "1"; "1"; "2"; "A"; "60"];
              ["2024"; "1"; "1"; "2"; "B"; "100"];
              columns;
              ["2024"; "2"; "1"; "2"; "C"; "250"];
              ["2024"; "2"; "1"; "2"; "A"; "40"]])].

(** The same sheet without the repeated header. *)
Definition zf_ties_clean : archive :=
  [("xl/worksheets/sheet1.xml",
    sheet_of [["2024"; "1"; "1"; "2"; "A"; "60"];
              ["2024"; "1"; "1"; "2"; "B"; "100"];
              ["2024"; "2"; "1"; "2"; "C"; "250"];
              ["2024"; "2"; "1"; "2"; "A"; "40"]])].

(** What a data row contributes to the ranking: its category is the cell of
    the column name, its magnitude the number read from the cell of the
    column total_bet_handle, 0.0 for an empty cell. *)
Definition magnitude_of (h : option string) (x : float) : Prop :=
  ((h = None \/ h = Some ""%string) /\ x = 0) \/
  (h <> None /\ h <> Some ""%string /\ Py.float h = Ok x).

Definition ranked_row (idx : list (option string * Z)) (r : row)
  (rec : option string * float) : Prop :=
  exists h,
    column idx r "name" = Ok (fst rec) /\
    column idx r "total_bet_handle" = Ok h /\
    magnitude_of h (snd rec).

(** Three categories with the handles 1, nan and 2. *)
Definition zf_nan : archive :=
  [("xl/worksheets/sheet1.xml",
    sheet_of [columns;
              ["2024"; "1"; "1"; "2"; "A"; "1"];
              ["2024"; "1"; "1"; "2"; "B"; "nan"];
              ["2024"; "1"; "1"; "2"; "C"; "2"]])].

Definition recs_nan : list (option string * float) :=
  [(Some "A"%string, 1); (Some "B"%string, nan); (Some "C"%string, 2)].

(** The outcome of a read, without its value. *)
Definition outcome {A} (m : result A) : result unit :=
  match m with
  | Ok _ => Ok tt
  | Raise e => Raise e
  end.

(** The exception of the first read that fails. *)
Fixpoint first_failure (reads : list (result unit)) : option exn :=
  match reads with
  | [] => None
  | Ok _ :: reads' => first_failure reads'
  | Raise e :: _ => Some e
  end.

(** The reads that lines 38-40 make in a data row before they look up the
    column [name]: the year, the month and the count, in this order. *)
Definition reads_before (idx : list (option string * Z)) (r : row)
  (name : string) : list (result unit) :=
  let year := outcome (c <- column idx r "bet_year" ;; Py.int c) in
  let month := outcome (c <- column idx r "bet_month" ;; Py.int c) in
  let count := outcome (c <- column idx r "count_of_bets" ;; Py.float c) in
  if String.eqb name "bet_year" then []
  else if String.eqb name "bet_month" then [year]
  else if String.eqb name "count_of_bets" then [year; month]
  else [year; month; count].

(** A header without the month column, and one data row. *)
Definition zf_no_month : archive :=
  [("xl/worksheets/sheet1.xml",
    sheet_of [["bet_year"; "count_of_bets";
               "avg_leg_count_inclusiveofstraightbets"];
              ["2024"; "1"; "10"]])].

(** A sheet whose second data row holds a shared-string index out of the
    table, between two rows that read. *)
Definition zf_corrupt : archive :=
  [("xl/worksheets/sheet1.xml",
    [text_row ["name"]; text_row ["A"];
     cells_row [shared_cell (Some (Some "5"))]; text_row ["B"]])].

(** Lines 77-83: what [operator_trailing] reads of a row: nothing for a row
    of a category that is not selected, else the category and the record of
    the row. *)
Definition read_selected (idx : list (option string * Z))
  (operators : list (option string)) (r : row)
  : result (option (option string * (period * (float * float)))) :=
  name <- column idx r "name" ;;
  if negb (existsb (Py.eqb name) operators) then Ok None
  else rec <- read_row idx r ;; Ok (Some (name, rec)).

(** The records read of the selected rows, in stream order. *)
Definition selected_records {X} (xs : list (option X)) : list X :=
  flat_map (fun o => match o with
                     | Some x => [x]
                     | None => []
                     end) xs.

(** Lines 84-85: a record routed to the accumulators of its category. *)
Definition route (stats : list (option string * list (period * acc)))
  (x : option (option string * (period * (float * float))))
  : list (option string * list (period * acc)) :=
  match x with
  | None => stats
  | Some (name, (ym, ca)) =>
      Dict.set stats name
        (accumulate (Dict.get_default [] stats name) ym (fst ca) (snd ca))
  end.

(** Lines 88-89: the trailing series of one category. *)
Definition category_series (stats : list (option string * list (period * acc)))
  (op : option string) : result (list (period * float)) :=
  series <- Py.comprehension (fun '(ym, d) =>
                v <- Py.truediv (ws d) (cnt d) ;; Ok (ym, v))
              (Dict.get_default [] stats op) ;;
  trailing_average series 12.

(** The rows of a stream that [operator_trailing] does not skip. *)
Definition drop_unselected (idx : list (option string * Z))
  (operators : list (option string)) (g : list (result row))
  : list (result row) :=
  filter (fun o => match o with
                   | Ok r =>
                       negb match column idx r "name" with
                            | Ok name => negb (existsb (Py.eqb name) operators)
                            | Raise _ => false
                            end
                   | Raise _ => true
                   end) g.

(** Two categories over two months; the rows of C are not numeric. *)
Definition zf_categories : archive :=
  [("xl/worksheets/sheet1.xml",
    sheet_of [columns;
              ["2024"; "1"; "2"; "10"; "A"; "5"];
              ["n/a"; "n/a"; "n/a"; "n/a"; "C"; "n/a"];
              ["2024"; "2"; "1"; "4"; "B"; "5"];
              ["2024"; "1"; "1"; "4"; "A"; "5"]])].

(** The same sheet without the rows of C. *)
Definition zf_categories_selected : archive :=
  [("xl/worksheets/sheet1.xml",
    sheet_of [columns;
              ["2024"; "1"; "2"; "10"; "A"; "5"];
              ["2024"; "2"; "1"; "4"; "B"; "5"];
              ["2024"; "1"; "1"; "4"; "A"; "5"]])].

(** An archive with both sheets; the Live sheet lacks February. *)
Definition zf_both : archive :=
  [("xl/worksheets/sheet1.xml",
    sheet_of [columns;
              ["2024"; "2"; "1"; "6"; "A"; "5"];
              ["2024"; "1"; "2"; "10"; "A"; "5"]]);
   ("xl/worksheets/sheet2.xml",
    sheet_of [columns; ["2024"; "1"; "1"; "4"; "A"; "5"]])].

(** * Facts about the built-ins *)

(** The conversions on sample texts, with the rounding at the edges of the
    format. *)
Example float_examples :
  Py.float (Some "0.1") = Ok 0.1 /\ Py.float (Some " 8 ") = Ok 8 /\
  Py.float (Some "-2.5e-3") = Ok (-0.0025) /\ Py.float (Some "1e16") = Ok 1e16 /\
  Py.float (Some "1_0.") = Ok 10 /\ Py.float (Some ".5") = Ok 0.5 /\
  Py.float (Some "1e999") = Ok infinity /\ Py.float (Some "4.9e-324") = Ok 0x1p-1074 /\
  Py.float (Some "2.4703282292062328e-324") = Ok 0x1p-1074 /\
  Py.float (Some "2.4703282292062327e-324") = Ok 0 /\
  Py.float (Some "9007199254740993") = Ok 9007199254740992 /\
  Py.float (Some "0.30000000000000004") = Ok (0.1 + 0.2) /\
  Py.float (Some "") = Raise ValueError /\ Py.float (Some "abc") = Raise ValueError /\
  Py.float (Some ".") = Raise ValueError /\ Py.float (Some "1e") = Raise ValueError /\
  Py.float (Some "1_") = Raise ValueError /\ Py.float None = Raise TypeError /\
  Py.int (Some " -12 ") = Ok (-12)%Z /\ Py.int (Some "2024.0") = Raise ValueError /\
  Py.int (Some "") = Raise ValueError /\ Py.float_of_int 3 = 3.
Proof. repeat split; vm_compute; reflexivity. Qed.

(** White space around a number: a vertical tab is dropped, the separator
    with code 28 is not; and a number of 4301 digits is refused by [int]
    and read by [float]. *)
Example white_space_examples :
  Py.int (Some (String (ascii_of_nat 11) "5")) = Ok 5%Z /\
  Py.int (Some (String (ascii_of_nat 28) "5")) = Raise ValueError /\
  Py.float (Some (String (ascii_of_nat 28) "5")) = Raise ValueError /\
  Py.int (Some (string_of_list_ascii (repeat "0"%char 4300))) = Ok 0%Z /\
  Py.int (Some (string_of_list_ascii (repeat "0"%char 4301))) = Raise ValueError /\
  Py.float (Some (string_of_list_ascii (repeat "0"%char 4301))) = Ok 0.
Proof. repeat split; vm_compute; reflexivity. Qed.

Module DictFacts.
Import Dict.
Section DictFacts.
Context {K V : Type} `{Py.Eq K}.
Implicit Types (d : list (K * V)) (k : K) (v : V).

Lemma get_set_eq d k v : get (set d k v) k = Some v.
Proof.
  induction d as [|[k' v'] d IH]; simpl.
  - now rewrite Py.eqb_refl.
  - destruct (Py.eqb k' k) eqn:E; simpl; now rewrite E.
Qed.

Lemma get_set_neq d k k' v : k <> k' -> get (set d k v) k' = get d k'.
Proof.
  intros Hne; induction d as [|[k0 v0] d IH]; simpl.
  - apply Py.eqb_neq in Hne. now rewrite Hne.
  - destruct (Py.eqb k0 k) eqn:E; simpl.
    + apply Py.eqb_eq in E; subst k0.
      apply Py.eqb_neq in Hne. now rewrite Hne.
    + now rewrite IH.
Qed.

Lemma existsb_eqb_In k ks : existsb (Py.eqb k) ks = true <-> In k ks.
Proof.
  rewrite existsb_exists; split.
  - intros (x & Hx & E). apply Py.eqb_eq in E. now subst.
  - intros Hk. exists k. split; [assumption | apply Py.eqb_refl].
Qed.

Lemma keys_set d k v : keys (set d k v) = add_key (keys d) k.
Proof.
  unfold add_key, keys.
  induction d as [|[k' v'] d IH]; simpl; [reflexivity|].
  destruct (Py.eqb k' k) eqn:E; simpl.
  - apply Py.eqb_eq in E; subst. now rewrite Py.eqb_refl.
  - rewrite IH.
    assert (Py.eqb k k' = false) as ->.
    { apply Py.eqb_neq. apply Py.eqb_neq in E. congruence. }
    simpl. now destruct (existsb (Py.eqb k) (map fst d)).
Qed.

Lemma get_None_keys d k : get d k = None <-> ~ In k (keys d).
Proof.
  unfold keys; induction d as [|[k' v'] d IH]; simpl; [tauto|].
  destruct (Py.eqb_spec k' k); [split; [discriminate|tauto]|].
  rewrite IH; tauto.
Qed.

Lemma get_Some_keys d k v : get d k = Some v -> In k (keys d).
Proof.
  intros Hg. destruct (in_dec (fun x y => reflect_dec _ _ (Py.eqb_spec x y)) k (keys d))
    as [Hin|Hin]; [assumption|].
  apply get_None_keys in Hin. congruence.
Qed.

Lemma get_In d k v : get d k = Some v -> In (k, v) d.
Proof.
  induction d as [|[k' v'] d IH]; simpl; [discriminate|].
  destruct (Py.eqb_spec k' k); [|auto].
  intros [= ->]; subst; auto.
Qed.

Lemma In_get d k v : NoDup (keys d) -> In (k, v) d -> get d k = Some v.
Proof.
  unfold keys; induction d as [|[k' v'] d IH]; simpl; [tauto|].
  intros Hnd [[= -> ->]|Hin].
  - now rewrite Py.eqb_refl.
  - inversion Hnd as [|? ? Hk Hnd']; subst.
    destruct (Py.eqb_spec k' k); [|auto].
    subst. exfalso. apply Hk. apply (in_map fst) in Hin. exact Hin.
Qed.

Lemma add_key_NoDup ks k : NoDup ks -> NoDup (add_key ks k).
Proof.
  intros Hnd; unfold add_key.
  destruct (existsb (Py.eqb k) ks) eqn:E; [assumption|].
  apply NoDup_app; [assumption | repeat constructor; simpl; tauto |].
  intros x Hx [->|[]].
  apply existsb_eqb_In in Hx. congruence.
Qed.

Lemma add_key_In ks k x : In x (add_key ks k) <-> In x ks \/ x = k.
Proof.
  unfold add_key. destruct (existsb (Py.eqb k) ks) eqn:E.
  - apply existsb_eqb_In in E. split; [tauto|]. intros [?| ->]; assumption.
  - rewrite in_app_iff; simpl. intuition congruence.
Qed.

Lemma add_key_app ks k : exists new, add_key ks k = ks ++ new.
Proof.
  unfold add_key. destruct (existsb (Py.eqb k) ks).
  - exists []. now rewrite app_nil_r.
  - now exists [k].
Qed.
Lemma set_new (d : list (K * V)) k v :
  ~ In k (keys d) -> set d k v = d ++ [(k, v)].
Proof.
  unfold keys; induction d as [|[k' v'] d IH]; simpl; [reflexivity|].
  intros Hn. destruct (Py.eqb_spec k' k); [tauto|].
  rewrite IH; tauto.
Qed.

Lemma getitem_keys (dflt : V) (d : list (K * V)) k :
  In k (keys d) -> getitem d k = Ok (get_default dflt d k).
Proof.
  intros Hin. unfold getitem, get_default.
  destruct (get d k) eqn:E; [reflexivity|].
  apply DictFacts.get_None_keys in E. contradiction.
Qed.
End DictFacts.
End DictFacts.

Module ListFacts.
Section ListFacts.
Context {A B : Type}.

Lemma firstn_succ_nth (d : A) (l : list A) (n : nat) :
  (n < length l)%nat -> firstn (S n) l = firstn n l ++ [nth n l d].
Proof.
  revert n; induction l as [|a l IH]; simpl; intros n Hn; [lia|].
  destruct n as [|n]; [reflexivity|].
  simpl. f_equal. apply IH. lia.
Qed.

Lemma skipn_nth_cons (d : A) (l : list A) (k : nat) :
  (k < length l)%nat -> skipn k l = nth k l d :: skipn (S k) l.
Proof.
  revert k; induction l as [|a l IH]; simpl; intros k Hk; [lia|].
  destruct k as [|k]; [reflexivity|].
  simpl. apply IH. lia.
Qed.

Lemma combine_snoc (l : list A) (l' : list B) a b :
  length l = length l' -> combine (l ++ [a]) (l' ++ [b]) = combine l l' ++ [(a, b)].
Proof.
  revert l'; induction l as [|x l IH]; intros [|y l']; simpl; try discriminate; auto.
  intros [= Hl]. f_equal. auto.
Qed.

Lemma NoDup_nth_error_firstn (l : list A) (n : nat) (a : A) :
  NoDup l -> nth_error l n = Some a -> ~ In a (firstn n l).
Proof.
  revert n; induction l as [|x l IH]; intros [|n] Hnd Hn; simpl in *; try discriminate; auto.
  inversion Hnd as [|? ? Hx Hnd']; subst.
  intros [->|Hin].
  - apply Hx. eapply nth_error_In; eauto.
  - eapply IH; eauto.
Qed.

Lemma map_fst_combine (l : list A) (l' : list B) :
  length l = length l' -> map fst (combine l l') = l.
Proof.
  revert l'; induction l as [|x l IH]; intros [|y l']; simpl; try discriminate; auto.
  intros [= Hl]. f_equal. auto.
Qed.
End ListFacts.
End ListFacts.

Module SortFacts.
Section Before.
Context {A : Type}.
Implicit Types (x y a : A) (l : list A).

Lemma before_cons x y a l : before x y l -> before x y (a :: l).
Proof. intros (l1 & l2 & l3 & ->). now exists (a :: l1), l2, l3. Qed.

Lemma before_head x y l : In y l -> before x y (x :: l).
Proof.
  intros Hin. apply in_split in Hin as (l2 & l3 & ->). now exists [], l2, l3.
Qed.

Lemma before_inv x y a l :
  before x y (a :: l) -> (a = x /\ In y l) \/ before x y l.
Proof.
  intros ([|b l1] & l2 & l3 & E); simpl in E; injection E as -> ->.
  - left. split; [reflexivity|]. apply in_or_app. right. now left.
  - right. now exists l1, l2, l3.
Qed.

Lemma before_In_l x y l : before x y l -> In x l.
Proof. intros (l1 & l2 & l3 & ->). apply in_or_app. right. now left. Qed.

Lemma before_In_r x y l : before x y l -> In y l.
Proof.
  intros (l1 & l2 & l3 & ->). apply in_or_app. right. right.
  apply in_or_app. right. now left.
Qed.

Lemma before_app_l x y l l' : before x y l -> before x y (l ++ l').
Proof.
  intros (l1 & l2 & l3 & ->). exists l1, l2, (l3 ++ l').
  now rewrite <- !app_assoc, <- !app_comm_cons, <- app_assoc.
Qed.

Lemma before_app_r x y l l' : before x y l' -> before x y (l ++ l').
Proof. induction l; simpl; auto using before_cons. Qed.

Lemma before_app_split x y l l' : In x l -> In y l' -> before x y (l ++ l').
Proof.
  intros Hx Hy. apply in_split in Hx as (l1 & l2 & ->).
  apply in_split in Hy as (l3 & l4 & ->).
  exists l1, (l2 ++ l3), l4. now rewrite <- !app_assoc.
Qed.

Lemma before_rev x y l : before x y l -> before y x (rev l).
Proof.
  intros (l1 & l2 & l3 & ->). exists (rev l3), (rev l2), (rev l1).
  rewrite rev_app_distr. simpl. rewrite rev_app_distr. simpl.
  now rewrite <- !app_assoc.
Qed.

Lemma before_map {B} (f : A -> B) x y l :
  before x y l -> before (f x) (f y) (map f l).
Proof.
  intros (l1 & l2 & l3 & ->). exists (map f l1), (map f l2), (map f l3).
  now rewrite map_app, map_cons, map_app, map_cons.
Qed.

Lemma before_NoDup_neq x y l : NoDup l -> before x y l -> x <> y.
Proof.
  intros Hnd (l1 & l2 & l3 & ->) ->.
  apply NoDup_remove_2 in Hnd. apply Hnd.
  apply in_or_app. right. apply in_or_app. right. now left.
Qed.

Lemma before_firstn x y l n :
  NoDup l -> before x y l -> In y (firstn n l) -> before x y (firstn n l).
Proof.
  revert n; induction l as [|a l IH]; intros n Hnd Hb Hin.
  - destruct Hb as ([|? ?] & ? & ? & ?); discriminate.
  - destruct n as [|n]; [destruct Hin|].
    inversion Hnd as [|? ? Ha Hnd']; subst.
    simpl in *. apply before_inv in Hb as [[-> Hy]|Hb].
    + destruct Hin as [->|Hin]; [contradiction|]. now apply before_head.
    + destruct Hin as [->|Hin].
      * exfalso. apply Ha. eapply before_In_r; eauto.
      * apply before_cons. auto.
Qed.
End Before.

Section Sort.
Context {A : Type} (lt : A -> A -> bool).
Implicit Types (x y a : A) (l : list A).

Lemma insort_perm x l : Permutation (Py.insort lt x l) (x :: l).
Proof.
  induction l as [|y l IH]; simpl; [reflexivity|].
  destruct (lt y x); [|reflexivity].
  rewrite IH. apply perm_swap.
Qed.

Lemma sort_asc_perm l : Permutation (Py.sort_asc lt l) l.
Proof.
  induction l as [|x l IH]; simpl; [reflexivity|].
  rewrite insort_perm. now constructor.
Qed.

Lemma sorted_perm reverse l : Permutation (Py.sorted lt reverse l) l.
Proof.
  unfold Py.sorted. destruct reverse; [|apply sort_asc_perm].
  rewrite <- Permutation_rev, sort_asc_perm. symmetry. apply Permutation_rev.
Qed.

(** Stability: inserting keeps the order of the elements already there, and
    goes in front of every element that is not smaller. *)
Lemma insort_before x y a l :
  before x y l -> before x y (Py.insort lt a l).
Proof.
  induction l as [|z l IH]; simpl; intros Hb.
  - destruct Hb as ([|? ?] & ? & ? & ?); discriminate.
  - destruct (lt z a); [|now apply before_cons].
    apply before_inv in Hb as [[-> Hy]|Hb].
    + apply before_head. eapply Permutation_in; [symmetry; apply insort_perm|].
      now right.
    + apply before_cons. auto.
Qed.

Lemma insort_before_new x y l :
  In y l -> lt y x = false -> before x y (Py.insort lt x l).
Proof.
  induction l as [|z l IH]; simpl; intros Hin Hlt; [destruct Hin|].
  destruct (lt z x) eqn:E.
  - destruct Hin as [->|Hin]; [congruence|]. apply before_cons. auto.
  - now apply before_head.
Qed.

Lemma sort_asc_stable x y l :
  before x y l -> lt y x = false -> before x y (Py.sort_asc lt l).
Proof.
  induction l as [|a l IH]; intros Hb Hlt.
  - destruct Hb as ([|? ?] & ? & ? & ?); discriminate.
  - simpl. apply before_inv in Hb as [[-> Hy]|Hb].
    + apply insort_before_new; [|assumption].
      eapply Permutation_in; [symmetry; apply sort_asc_perm|assumption].
    + apply insort_before. auto.
Qed.

(** With [reverse], an element stays in front of a later one that is not
    greater. *)
Lemma sorted_reverse_stable x y l :
  before x y l -> lt x y = false -> before x y (Py.sorted lt true l).
Proof.
  intros Hb Hlt. unfold Py.sorted.
  apply before_rev, sort_asc_stable; [|assumption].
  now apply before_rev.
Qed.

(** Order of the result, when [<] is a strict weak order on the elements
    that satisfy [P]. *)
Variable P : A -> Prop.
Hypothesis lt_asym : forall x y, P x -> P y -> lt x y = true -> lt y x = false.
Hypothesis lt_negtrans : forall x y z, P x -> P y -> P z ->
  lt y x = false -> lt z y = false -> lt z x = false.

Lemma insort_sorted x l :
  P x -> Forall P l ->
  StronglySorted (fun a b => lt b a = false) l ->
  StronglySorted (fun a b => lt b a = false) (Py.insort lt x l).
Proof.
  intros Hx HP Hs. induction Hs as [|z l Hs IH Hz]; simpl.
  - repeat constructor.
  - inversion HP as [|? ? Pz HP']; subst.
    destruct (lt z x) eqn:E.
    + constructor; [auto|].
      apply Forall_forall. intros b Hb.
      eapply Permutation_in in Hb; [|apply insort_perm].
      destruct Hb as [->|Hb]; [now apply lt_asym|].
      rewrite Forall_forall in Hz. auto.
    + constructor; [now constructor|].
      constructor; [assumption|].
      rewrite Forall_forall in *. intros b Hb.
      apply (lt_negtrans Hx Pz (HP' b Hb)); auto.
Qed.

Lemma sort_asc_sorted l :
  Forall P l -> StronglySorted (fun a b => lt b a = false) (Py.sort_asc lt l).
Proof.
  induction 1 as [|x l Hx HP IH]; simpl; [constructor|].
  apply insort_sorted; auto.
  eapply Permutation_Forall; [symmetry; apply sort_asc_perm|assumption].
Qed.

Lemma StronglySorted_before (R : A -> A -> Prop) x y l :
  StronglySorted R l -> before x y l -> R x y.
Proof.
  intros Hs (l1 & l2 & l3 & ->).
  induction l1 as [|a l1 IH]; simpl in Hs.
  - apply StronglySorted_inv in Hs as [_ Hall].
    rewrite Forall_forall in Hall. apply Hall.
    apply in_or_app. right. now left.
  - apply StronglySorted_inv in Hs as [Hs _]. auto.
Qed.

(** In the result of a reversed sort no element is smaller than a later
    one. *)
Lemma sorted_reverse_desc x y l :
  Forall P l -> before x y (Py.sorted lt true l) -> lt x y = false.
Proof.
  intros HP Hb. unfold Py.sorted in Hb.
  apply before_rev in Hb. rewrite rev_involutive in Hb.
  eapply (StronglySorted_before (R := fun a b => lt b a = false)); [|exact Hb].
  apply sort_asc_sorted.
  eapply Permutation_Forall; [apply Permutation_rev|assumption].
Qed.

Lemma sorted_asc_before x y l :
  Forall P l -> before x y (Py.sorted lt false l) -> lt y x = false.
Proof.
  intros HP Hb. unfold Py.sorted in Hb.
  eapply (StronglySorted_before (R := fun a b => lt b a = false)); [|exact Hb].
  now apply sort_asc_sorted.
Qed.
End Sort.

Lemma pair_ltb_asym (x y : Z * Z) : Py.pair_ltb x y = true -> Py.pair_ltb y x = false.
Proof. unfold Py.pair_ltb. destruct x, y; simpl. lia. Qed.

Lemma pair_ltb_negtrans (x y z : Z * Z) :
  Py.pair_ltb y x = false -> Py.pair_ltb z y = false -> Py.pair_ltb z x = false.
Proof. unfold Py.pair_ltb. destruct x, y, z; simpl. lia. Qed.

Lemma pair_ltb_total (x y : Z * Z) :
  Py.pair_ltb y x = false -> x <> y -> Py.pair_ltb x y = true.
Proof.
  unfold Py.pair_ltb. destruct x as [a b], y as [c d]; simpl. intros H Hne.
  assert (a <> c \/ b <> d) by (destruct (Z.eq_dec a c), (Z.eq_dec b d); subst; tauto || congruence).
  lia.
Qed.
End SortFacts.

(** * Facts about the program *)

Module IterFacts.
Section IterFacts.
Context {A X S : Type}.

Lemma for_each_map_Ok (f : A -> result X) (g : S -> X -> S) (rows : list A) :
  forall st,
  Py.for_each (map Ok rows) (fun r st => x <- f r ;; Ok (g st x)) st =
  (xs <- Py.comprehension f rows ;; Ok (fold_left g xs st)).
Proof.
  induction rows as [|r rows IH]; intros st; simpl; [reflexivity|].
  destruct (f r) as [x|e]; simpl; [|reflexivity].
  rewrite IH. destruct (Py.comprehension f rows); reflexivity.
Qed.

Lemma comprehension_app (f : A -> result X) (l1 l2 : list A) xs :
  Py.comprehension f l1 = Ok xs ->
  Py.comprehension f (l1 ++ l2) = (ys <- Py.comprehension f l2 ;; Ok (xs ++ ys)).
Proof.
  revert xs; induction l1 as [|a l1 IH]; intros xs; simpl.
  - intros [= <-]. destruct (Py.comprehension f l2); reflexivity.
  - destruct (f a) as [x|e]; simpl; [|discriminate].
    destruct (Py.comprehension f l1) as [xs1|e]; simpl; [|discriminate].
    intros [= <-]. rewrite (IH xs1 eq_refl).
    destruct (Py.comprehension f l2); reflexivity.
Qed.

Lemma comprehension_total (f : A -> X) (l : list A) :
  Py.comprehension (fun a => Ok (f a)) l = Ok (map f l).
Proof. induction l as [|a l IH]; simpl; [reflexivity|]. now rewrite IH. Qed.

Lemma comprehension_ext (f f' : A -> result X) (l : list A) :
  (forall a, In a l -> f a = f' a) ->
  Py.comprehension f l = Py.comprehension f' l.
Proof.
  induction l as [|a l IH]; intros Hf; simpl; [reflexivity|].
  rewrite (Hf a) by now left. rewrite IH; [reflexivity|].
  intros; apply Hf; now right.
Qed.

Lemma comprehension_length (f : A -> result X) (l : list A) xs :
  Py.comprehension f l = Ok xs -> length xs = length l.
Proof.
  revert xs; induction l as [|a l IH]; intros xs; simpl.
  - now intros [= <-].
  - destruct (f a); simpl; [|discriminate].
    destruct (Py.comprehension f l) as [ys|]; simpl; [|discriminate].
    intros [= <-]. simpl. f_equal. now apply IH.
Qed.
End IterFacts.
End IterFacts.

(** Accumulation into a dictionary with a default. *)
Module AccumFacts.
Section Keys.
Context {K : Type} `{Py.Eq K}.

Lemma fold_add_key_In (l : list K) : forall ks x,
  In x (fold_left Dict.add_key l ks) <-> In x ks \/ In x l.
Proof.
  induction l as [|k l IH]; intros ks x; simpl; [tauto|].
  rewrite IH, DictFacts.add_key_In. intuition congruence.
Qed.

Lemma fold_add_key_NoDup (l : list K) : forall ks,
  NoDup ks -> NoDup (fold_left Dict.add_key l ks).
Proof.
  induction l as [|k l IH]; intros ks Hnd; simpl; [assumption|].
  apply IH. now apply DictFacts.add_key_NoDup.
Qed.

Lemma fold_add_key_app (l : list K) : forall ks,
  exists new, fold_left Dict.add_key l ks = ks ++ new.
Proof.
  induction l as [|k l IH]; intros ks; simpl.
  - exists []. now rewrite app_nil_r.
  - destruct (DictFacts.add_key_app ks k) as (n1 & E1).
    destruct (IH (Dict.add_key ks k)) as (n2 & E2).
    exists (n1 ++ n2). rewrite E2, E1. now rewrite app_assoc.
Qed.
End Keys.

Section AccumFacts.
Context {K V X : Type} `{Py.Eq K}.
Variable f : V -> X -> V.
Variable dflt : V.

Let step := accum_step f dflt.

Lemma keys_fold (l : list (K * X)) : forall d,
  Dict.keys (fold_left step l d) = fold_left Dict.add_key (map fst l) (Dict.keys d).
Proof.
  induction l as [|[k x] l IH]; intros d; simpl; [reflexivity|].
  rewrite IH. unfold step, accum_step. simpl. now rewrite DictFacts.keys_set.
Qed.

Lemma get_step_eq d k x :
  Dict.get (step d (k, x)) k = Some (f (Dict.get_default dflt d k) x).
Proof. unfold step, accum_step. simpl. apply DictFacts.get_set_eq. Qed.

Lemma get_step_neq d k k' x :
  k' <> k -> Dict.get (step d (k', x)) k = Dict.get d k.
Proof. intros Hne. unfold step, accum_step. simpl. now apply DictFacts.get_set_neq. Qed.

Lemma values_of_absent k (l : list (K * X)) :
  existsb (Py.eqb k) (map fst l) = false -> values_of k l = [].
Proof.
  unfold values_of. induction l as [|[k' x] l IH]; simpl; [reflexivity|].
  intros E. apply orb_false_elim in E as [E1 E2].
  assert (Py.eqb k' k = false) as ->.
  { apply Py.eqb_neq. apply Py.eqb_neq in E1. congruence. }
  auto.
Qed.

Lemma get_fold (l : list (K * X)) k : forall d,
  Dict.get (fold_left step l d) k =
  if existsb (Py.eqb k) (map fst l)
  then Some (fold_left f (values_of k l) (Dict.get_default dflt d k))
  else Dict.get d k.
Proof.
  induction l as [|[k' x] l IH]; intros d; [reflexivity|].
  cbn [fold_left map existsb fst]. rewrite IH.
  unfold values_of. cbn [filter fst].
  destruct (Py.eqb_spec k' k) as [->|Hne].
  - rewrite Py.eqb_refl. cbn [orb map snd fold_left].
    unfold Dict.get_default at 1. rewrite get_step_eq.
    destruct (existsb (Py.eqb k) (map fst l)) eqn:E; [reflexivity|].
    apply values_of_absent in E. unfold values_of in E. now rewrite E.
  - assert (Py.eqb k k' = false) as -> by (apply Py.eqb_neq; congruence).
    cbn [orb]. unfold Dict.get_default at 1.
    rewrite get_step_neq by assumption.
    reflexivity.
Qed.

End AccumFacts.
End AccumFacts.

Module ReaderFacts.

Lemma index_in_range {A} (l : list A) (i : Z) :
  0 <= i < Z.of_nat (length l) ->
  exists a, nth_error l (Z.to_nat i) = Some a /\ Py.index l i = Ok a.
Proof.
  intros Hi. unfold Py.index.
  destruct (Z.ltb_spec i 0); [lia|].
  destruct (Z.ltb_spec i 0); [lia|].
  destruct (Z.leb_spec (Z.of_nat (length l)) i); [lia|]. simpl.
  destruct (nth_error l (Z.to_nat i)) as [a|] eqn:E; [eauto|].
  apply nth_error_None in E. lia.
Qed.

Lemma index_out_of_range {A} (l : list A) (i : Z) :
  Z.of_nat (length l) <= i \/ i < - Z.of_nat (length l) ->
  Py.index l i = Raise IndexError.
Proof.
  intros Hi. unfold Py.index.
  destruct (Z.ltb_spec i 0).
  - destruct (Z.ltb_spec (i + Z.of_nat (length l)) 0); [reflexivity|lia].
  - destruct (Z.ltb_spec i 0); [lia|].
    destruct (Z.leb_spec (Z.of_nat (length l)) i); [reflexivity|lia].
Qed.

Lemma rows_of_all SHARED (events : list element) :
  (forall elem c, In elem events -> is_row elem = true -> In c (cells elem) ->
     exists v, cell_value SHARED c = Ok v) ->
  exists rows,
    rows_of SHARED events = map Ok rows /\
    map (@List.length _) rows =
      map (fun elem => length (cells elem)) (filter is_row events).
Proof.
  induction events as [|elem events IH]; intros Hcells.
  - exists []. split; reflexivity.
  - destruct IH as (rows & Hrows & Hlen).
    { intros e c He. apply Hcells. now right. }
    cbn [rows_of filter].
    destruct (is_row elem) eqn:Erow; [|exists rows; now split].
    assert (Hr : exists r, Py.comprehension (cell_value SHARED) (cells elem) = Ok r).
    { assert (Hc : forall c, In c (cells elem) -> exists v, cell_value SHARED c = Ok v).
      { intros c Hc. apply (Hcells elem c); [now left|assumption|assumption]. }
      clear - Hc. induction (cells elem) as [|c cs IHc]; simpl; [eauto|].
      destruct (Hc c) as (v & ->); [now left|].
      destruct IHc as (r & ->); [intros; apply Hc; now right|].
      simpl. eauto. }
    destruct Hr as (r & Hr). rewrite Hr.
    exists (r :: rows). split; [simpl; now rewrite Hrows|].
    simpl. rewrite Hlen. f_equal. eapply IterFacts.comprehension_length; eauto.
Qed.
End ReaderFacts.

Module MonthlyFacts.

Lemma for_each_rows {A X S} (f : A -> result X) (g : S -> X -> S)
  (body : A -> S -> result S) (rows : list A) (st : S) :
  (forall r s, body r s = (x <- f r ;; Ok (g s x))) ->
  Py.for_each (map Ok rows) body st =
  (xs <- Py.comprehension f rows ;; Ok (fold_left g xs st)).
Proof.
  intros Hbody. rewrite <- IterFacts.for_each_map_Ok.
  revert st. induction rows as [|r rows IH]; intros st; simpl; [reflexivity|].
  rewrite Hbody. destruct (f r); simpl; [apply IH|reflexivity].
Qed.

Lemma ws_fold xs : forall d,
  ws (fold_left acc_add xs d) = fold_left (fun s ca => s + snd ca * fst ca) xs (ws d).
Proof. induction xs as [|x xs IH]; intros d; simpl; [reflexivity|]. now rewrite IH. Qed.

Lemma cnt_fold xs : forall d,
  cnt (fold_left acc_add xs d) = fold_left (fun s ca => s + fst ca) xs (cnt d).
Proof. induction xs as [|x xs IH]; intros d; simpl; [reflexivity|]. now rewrite IH. Qed.

Lemma finalize_comprehension (stats : list (period * acc)) :
  Py.comprehension (fun '(ym, d) =>
      v <- (if Py.truthy_float (cnt d) then Py.truediv (ws d) (cnt d)
            else Ok 0) ;;
      Ok (ym, v)) stats =
  Ok (map (fun kd => (fst kd, finalize (snd kd))) stats).
Proof.
  rewrite <- IterFacts.comprehension_total.
  apply IterFacts.comprehension_ext. intros [ym d] _.
  unfold Py.truthy_float, Py.truediv, finalize. simpl.
  destruct (PrimFloat.eqb (cnt d) 0); reflexivity.
Qed.

Lemma get_map_values {V W} (g : V -> W) (d : list (period * V)) k :
  Dict.get (map (fun kd => (fst kd, g (snd kd))) d) k = option_map g (Dict.get d k).
Proof.
  induction d as [|[k' v] d IH]; [reflexivity|].
  cbn [map Dict.get fst snd].
  destruct (Py.eqb k' k); [reflexivity|assumption].
Qed.

Lemma keys_map_values {V W} (g : V -> W) (d : list (period * V)) :
  Dict.keys (map (fun kd => (fst kd, g (snd kd))) d) = Dict.keys d.
Proof. unfold Dict.keys. rewrite map_map. reflexivity. Qed.

Lemma monthly_weighted_avg_unfold SHARED zf sheet header rows :
  iter_rows SHARED zf sheet = map Ok (header :: rows) ->
  monthly_weighted_avg SHARED zf sheet =
  (recs <- Py.comprehension (read_row (column_index header)) rows ;;
   Ok (map (fun kd => (fst kd, finalize (snd kd)))
         (fold_left (accum_step acc_add acc0) recs []))).
Proof.
  intros Hrows. unfold monthly_weighted_avg. rewrite Hrows.
  cbn [map Py.next bind].
  rewrite (@for_each_rows _ _ _ (read_row (column_index header))
             (accum_step acc_add acc0)).
  2:{ intros r s. destruct (read_row (column_index header) r) as [[ym [c a]]|e];
      reflexivity. }
  destruct (Py.comprehension (read_row (column_index header)) rows); simpl;
    [|reflexivity].
  apply finalize_comprehension.
Qed.
End MonthlyFacts.

Module MonthlyErrorFacts.
Lemma monthly_weighted_avg_raise SHARED zf sheet header rows1 r rows2 recs e :
  iter_rows SHARED zf sheet = map Ok (header :: rows1 ++ r :: rows2) ->
  Py.comprehension (read_row (column_index header)) rows1 = Ok recs ->
  read_row (column_index header) r = Raise e ->
  monthly_weighted_avg SHARED zf sheet = Raise e.
Proof.
  intros Hrows Hrecs Hr.
  rewrite (MonthlyFacts.monthly_weighted_avg_unfold _ _ _ Hrows).
  erewrite IterFacts.comprehension_app by eassumption. simpl. now rewrite Hr.
Qed.

Lemma column_missing idx r name :
  Dict.get idx (Some name) = None -> column idx r name = Raise KeyError.
Proof. intros Hg. unfold column, Dict.getitem. now rewrite Hg. Qed.

Lemma read_row_missing idx r name :
  In name required_columns -> Dict.get idx (Some name) = None ->
  read_row idx r =
  Raise match first_failure (reads_before idx r name) with
        | Some e => e
        | None => KeyError
        end.
Proof.
  intros Hin Hg. unfold read_row, reads_before.
  destruct Hin as [<-|[<-|[<-|[<-|[]]]]]; cbn [String.eqb Ascii.eqb Bool.eqb];
    cbv iota; cbn [first_failure].
  - rewrite column_missing by assumption. reflexivity.
  - destruct (c <- column idx r "bet_year";; Py.int c) as [y|e];
      cbn [outcome first_failure bind]; [|reflexivity].
    rewrite column_missing by assumption. reflexivity.
  - destruct (c <- column idx r "bet_year";; Py.int c) as [y|e];
      cbn [outcome first_failure bind]; [|reflexivity].
    destruct (c <- column idx r "bet_month";; Py.int c) as [m|e];
      cbn [outcome first_failure bind]; [|reflexivity].
    rewrite column_missing by assumption. reflexivity.
  - destruct (c <- column idx r "bet_year";; Py.int c) as [y|e];
      cbn [outcome first_failure bind]; [|reflexivity].
    destruct (c <- column idx r "bet_month";; Py.int c) as [m|e];
      cbn [outcome first_failure bind]; [|reflexivity].
    destruct (c <- column idx r "count_of_bets";; Py.float c) as [c|e];
      cbn [outcome first_failure bind]; [|reflexivity].
    rewrite column_missing by assumption. reflexivity.
Qed.

Lemma first_failure_none reads :
  Forall (fun o => o = Ok tt) reads -> first_failure reads = None.
Proof. induction 1 as [|o reads -> _ IH]; simpl; auto. Qed.
End MonthlyErrorFacts.

Module FloatFacts.

Lemma SFltb_key (a b : spec_float) :
  a <> S754_nan -> b <> S754_nan ->
  (SFltb a b = true <-> key_lt (sf_key a) (sf_key b)).
Proof.
  intros Ha Hb. unfold SFltb, SFcompare, key_lt, sf_key.
  destruct a as [sa|sa| |sa ma ea], b as [sb|sb| |sb mb eb]; try congruence;
    try destruct sa; try destruct sb; try (split; [discriminate|lia]);
    try (split; [lia|reflexivity]).
  - destruct (Z.compare_spec ea eb); try (split; [discriminate|lia]);
      try (split; [lia|reflexivity]).
    subst. rewrite Pos.compare_cont_spec. simpl.
    destruct (Pos.compare_spec ma mb); simpl; split; try discriminate; try lia; auto.
  - destruct (Z.compare_spec ea eb); try (split; [discriminate|lia]);
      try (split; [lia|reflexivity]).
    subst. rewrite Pos.compare_cont_spec. simpl.
    destruct (Pos.compare_spec ma mb); simpl; split; try discriminate; try lia; auto.
Qed.

Lemma SFleb_key (a b : spec_float) :
  a <> S754_nan -> b <> S754_nan ->
  (SFleb a b = true <-> ~ key_lt (sf_key b) (sf_key a)).
Proof.
  intros Ha Hb. unfold SFleb, SFcompare, key_lt, sf_key.
  destruct a as [sa|sa| |sa ma ea], b as [sb|sb| |sb mb eb]; try congruence;
    try destruct sa; try destruct sb; try (split; [discriminate|lia]);
    try (split; [lia|reflexivity]).
  - destruct (Z.compare_spec ea eb); try (split; [discriminate|lia]);
      try (split; [lia|reflexivity]).
    subst. rewrite Pos.compare_cont_spec. simpl.
    destruct (Pos.compare_spec ma mb); simpl; split; try discriminate; try lia; auto.
  - destruct (Z.compare_spec ea eb); try (split; [discriminate|lia]);
      try (split; [lia|reflexivity]).
    subst. rewrite Pos.compare_cont_spec. simpl.
    destruct (Pos.compare_spec ma mb); simpl; split; try discriminate; try lia; auto.
Qed.

Lemma not_nan_spec (x : float) :
  PrimFloat.is_nan x = false -> Prim2SF x <> S754_nan.
Proof.
  intros Hx. unfold Prim2SF. rewrite Hx.
  destruct (is_zero x); [discriminate|].
  destruct (is_infinity x); [discriminate|].
  destruct (Z.frexp x) as [r e].
  destruct (shr_fexp prec emax _ _ _) as [s e'].
  destruct (shr_m s); discriminate.
Qed.

Lemma ltb_key (x y : float) :
  PrimFloat.is_nan x = false -> PrimFloat.is_nan y = false ->
  (PrimFloat.ltb x y = true <-> key_lt (sf_key (Prim2SF x)) (sf_key (Prim2SF y))).
Proof.
  intros Hx Hy. rewrite ltb_spec. apply SFltb_key; now apply not_nan_spec.
Qed.

Lemma ltb_asym (x y : float) :
  PrimFloat.is_nan x = false -> PrimFloat.is_nan y = false ->
  PrimFloat.ltb x y = true -> PrimFloat.ltb y x = false.
Proof.
  intros Hx Hy Hlt. apply (@ltb_key _ _ Hx Hy) in Hlt.
  apply not_true_is_false. intros Hyx. apply (@ltb_key _ _ Hy Hx) in Hyx.
  unfold key_lt in *.
  destruct (sf_key (Prim2SF x)) as [[a1 a2] a3], (sf_key (Prim2SF y)) as [[b1 b2] b3].
  lia.
Qed.

Lemma ltb_negtrans (x y z : float) :
  PrimFloat.is_nan x = false -> PrimFloat.is_nan y = false ->
  PrimFloat.is_nan z = false ->
  PrimFloat.ltb y x = false -> PrimFloat.ltb z y = false ->
  PrimFloat.ltb z x = false.
Proof.
  intros Hx Hy Hz Hyx Hzy.
  apply not_true_iff_false in Hyx, Hzy. apply not_true_iff_false.
  rewrite (@ltb_key _ _ Hy Hx) in Hyx. rewrite (@ltb_key _ _ Hz Hy) in Hzy.
  rewrite (@ltb_key _ _ Hz Hx).
  unfold key_lt in *.
  destruct (sf_key (Prim2SF x)) as [[a1 a2] a3], (sf_key (Prim2SF y)) as [[b1 b2] b3],
    (sf_key (Prim2SF z)) as [[c1 c2] c3].
  lia.
Qed.

Lemma not_ltb_leb (x y : float) :
  PrimFloat.is_nan x = false -> PrimFloat.is_nan y = false ->
  PrimFloat.ltb x y = false -> PrimFloat.leb y x = true.
Proof.
  intros Hx Hy Hlt. apply not_true_iff_false in Hlt.
  rewrite (@ltb_key _ _ Hx Hy) in Hlt.
  rewrite leb_spec. apply SFleb_key; try now apply not_nan_spec. assumption.
Qed.

Lemma eqb_not_ltb (x y : float) :
  PrimFloat.eqb x y = true -> PrimFloat.ltb x y = false.
Proof.
  rewrite eqb_spec, ltb_spec. unfold SFeqb, SFltb.
  destruct (SFcompare (Prim2SF x) (Prim2SF y)) as [[| |]|]; congruence.
Qed.
End FloatFacts.

Module RankFacts.

Lemma for_each_skip {A X S} (skip : A -> bool) (f : A -> result X)
  (g : S -> X -> S) (rows : list A) : forall st,
  Py.for_each (map Ok rows)
    (fun r st => if skip r then Ok st else x <- f r ;; Ok (g st x)) st =
  (xs <- Py.comprehension f (filter (fun r => negb (skip r)) rows) ;;
   Ok (fold_left g xs st)).
Proof.
  induction rows as [|r rows IH]; intros st; simpl; [reflexivity|].
  destruct (skip r); simpl; [apply IH|].
  destruct (f r) as [x|e]; simpl; [|reflexivity].
  rewrite IH. destruct (Py.comprehension f _); reflexivity.
Qed.

Lemma for_each_ext {A S} (body body' : A -> S -> result S) g :
  (forall a s, body a s = body' a s) ->
  forall st, Py.for_each g body st = Py.for_each g body' st.
Proof.
  intros Hb. induction g as [|[a|e] g IH]; intros st; simpl; try reflexivity.
  rewrite Hb. destruct (body' a st); simpl; auto.
Qed.

Lemma top_operators_unfold SHARED zf header rows :
  iter_rows SHARED zf "All" = map Ok rows ->
  top_operators SHARED zf header =
  (recs <- Py.comprehension (read_handle (column_index header))
             (filter (fun r => negb (Py.eqb r header)) rows) ;;
   Ok (map fst (firstn 10 (Py.sorted by_total true
                             (fold_left (accum_step PrimFloat.add 0) recs []))))).
Proof.
  intros Hrows. unfold top_operators. rewrite Hrows.
  erewrite for_each_ext.
  - rewrite (for_each_skip (fun r => Py.eqb r header)
               (read_handle (column_index header)) (accum_step PrimFloat.add 0)).
    destruct (Py.comprehension _ _); reflexivity.
  - intros r s. cbv beta. destruct (Py.eqb r header); [reflexivity|].
    destruct (read_handle (column_index header) r) as [[n h]|e]; reflexivity.
Qed.

Lemma for_each_drop_header {S} header (body : row -> S -> result S)
  (g : list (result row)) : forall st,
  Py.for_each (drop_header_rows header g)
    (fun r st => if Py.eqb r header then Ok st else body r st) st =
  Py.for_each g (fun r st => if Py.eqb r header then Ok st else body r st) st.
Proof.
  induction g as [|[r|e] g IH]; intros st; [reflexivity| |reflexivity].
  unfold drop_header_rows in *. cbn [filter].
  destruct (Py.eqb r header) eqn:E; cbn [negb Py.for_each]; rewrite E.
  - cbn [bind]. apply IH.
  - destruct (body r st); cbn [bind]; auto.
Qed.

Lemma first_seen_before {K} `{Py.Eq K} (a b : K) (l : list K) :
  first_before a b l -> In b l -> before a b (first_seen l).
Proof.
  intros (Hne & l1 & l2 & -> & Hb) Hin. unfold first_seen.
  rewrite fold_left_app. cbn [fold_left].
  set (ks1 := fold_left Dict.add_key l1 []).
  assert (Hb1 : ~ In b ks1).
  { unfold ks1. rewrite AccumFacts.fold_add_key_In. simpl. tauto. }
  assert (Hb2 : ~ In b (Dict.add_key ks1 a)).
  { rewrite DictFacts.add_key_In. intuition congruence. }
  assert (Ha2 : In a (Dict.add_key ks1 a)).
  { rewrite DictFacts.add_key_In. now right. }
  destruct (AccumFacts.fold_add_key_app l2 (Dict.add_key ks1 a)) as (new & E).
  assert (Hbn : In b new).
  { assert (Hbr : In b (fold_left Dict.add_key l2 (Dict.add_key ks1 a))).
    { rewrite AccumFacts.fold_add_key_In. right.
      apply in_app_or in Hin as [Hin|[Hin|Hin]]; [contradiction|congruence|assumption]. }
    rewrite E in Hbr. apply in_app_or in Hbr as [Hbr|Hbr]; [contradiction|assumption]. }
  rewrite E. now apply SortFacts.before_app_split.
Qed.

Lemma before_map_inv {A B} (f : A -> B) (a b : B) (l : list A) :
  before a b (map f l) ->
  exists x y, f x = a /\ f y = b /\ before x y l.
Proof.
  intros (l1 & l2 & l3 & E).
  apply map_eq_app in E as (m1 & r1 & -> & <- & E).
  apply map_eq_cons in E as (x & r2 & -> & <- & E).
  apply map_eq_app in E as (m2 & r3 & -> & <- & E).
  apply map_eq_cons in E as (y & m3 & -> & <- & <-).
  exists x, y. repeat split. now exists m1, m2, m3.
Qed.

Lemma before_firstn_inv {A} (x y : A) (l : list A) n :
  before x y (firstn n l) -> before x y l.
Proof.
  intros Hb. rewrite <- (firstn_skipn n l). now apply SortFacts.before_app_l.
Qed.
Lemma In_firstn {A} (x : A) (l : list A) n : In x (firstn n l) -> In x l.
Proof.
  intros Hin. rewrite <- (firstn_skipn n l). apply in_or_app. now left.
Qed.
End RankFacts.

Module RankOrderFacts.
Section Totals.
Variable recs : list (option string * float).
Let totals := fold_left (accum_step PrimFloat.add 0) recs [].
Let ranked := Py.sorted by_total true totals.
Hypothesis no_nan : forall c, In c (map fst recs) ->
  PrimFloat.is_nan (category_total c recs) = false.

Lemma totals_keys : Dict.keys totals = first_seen (map fst recs).
Proof. unfold totals. now rewrite AccumFacts.keys_fold. Qed.

Lemma totals_NoDup : NoDup (Dict.keys totals).
Proof.
  unfold totals. rewrite AccumFacts.keys_fold.
  apply AccumFacts.fold_add_key_NoDup. constructor.
Qed.

Lemma totals_key_In c : In c (Dict.keys totals) <-> In c (map fst recs).
Proof.
  unfold totals. rewrite AccumFacts.keys_fold, AccumFacts.fold_add_key_In.
  simpl. tauto.
Qed.

Lemma totals_In c t : In (c, t) totals ->
  In c (map fst recs) /\ t = category_total c recs.
Proof.
  intros Hin.
  assert (Hk : In c (map fst recs)).
  { apply totals_key_In. apply (in_map fst) in Hin. exact Hin. }
  split; [assumption|].
  apply (@DictFacts.In_get _ _ _ totals c t totals_NoDup) in Hin.
  unfold totals in Hin. rewrite AccumFacts.get_fold in Hin.
  assert (existsb (Py.eqb c) (map fst recs) = true) as E
    by now apply DictFacts.existsb_eqb_In.
  rewrite E in Hin. injection Hin as <-. reflexivity.
Qed.

Lemma ranked_perm : Permutation ranked totals.
Proof. apply SortFacts.sorted_perm. Qed.

Lemma ranked_NoDup : NoDup (map fst ranked).
Proof.
  eapply Permutation_NoDup; [|exact totals_NoDup].
  symmetry. apply Permutation_map, ranked_perm.
Qed.

Lemma ranked_In c t : In (c, t) ranked ->
  In c (map fst recs) /\ t = category_total c recs.
Proof.
  intros Hin. apply totals_In. eapply Permutation_in; [apply ranked_perm|assumption].
Qed.

Lemma ranked_desc a b :
  before a b (map fst ranked) ->
  PrimFloat.leb (category_total b recs) (category_total a recs) = true.
Proof.
  intros Hb. apply RankFacts.before_map_inv in Hb as ([a' ta] & [b' tb] & Ea & Eb & Hb).
  simpl in Ea, Eb. subst a' b'.
  destruct (ranked_In _ _ (SortFacts.before_In_l Hb)) as (Ha & ->).
  destruct (ranked_In _ _ (SortFacts.before_In_r Hb)) as (Hb' & ->).
  apply FloatFacts.not_ltb_leb; auto.
  apply (SortFacts.sorted_reverse_desc by_total
           (P := fun x => PrimFloat.is_nan (snd x) = false)) in Hb.
  - exact Hb.
  - intros x y Hx Hy. now apply FloatFacts.ltb_asym.
  - intros x y z Hx Hy Hz. now apply FloatFacts.ltb_negtrans.
  - apply Forall_forall. intros [c t] Hin.
    apply totals_In in Hin as (Hc & ->). simpl. auto.
Qed.

Lemma ranked_stable a b :
  first_before a b (map fst recs) -> In b (map fst recs) ->
  PrimFloat.eqb (category_total a recs) (category_total b recs) = true ->
  before a b (map fst ranked).
Proof.
  intros Hfb Hin Heq.
  pose proof (RankFacts.first_seen_before Hfb Hin) as Hb.
  rewrite <- totals_keys in Hb. unfold Dict.keys in Hb.
  apply RankFacts.before_map_inv in Hb as ([a' ta] & [b' tb] & Ea & Eb & Hb).
  simpl in Ea, Eb. subst a' b'.
  destruct (totals_In _ _ (SortFacts.before_In_l Hb)) as (_ & ->).
  destruct (totals_In _ _ (SortFacts.before_In_r Hb)) as (_ & ->).
  apply (SortFacts.before_map fst (x := (a, category_total a recs))
           (y := (b, category_total b recs))).
  apply SortFacts.sorted_reverse_stable; [assumption|].
  unfold by_total. simpl. now apply FloatFacts.eqb_not_ltb.
Qed.
End Totals.
End RankOrderFacts.

Module RankRowFacts.
Lemma read_handle_ranked_row idx r rec :
  ranked_row idx r rec -> read_handle idx r = Ok rec.
Proof.
  destruct rec as [name x]. intros (h & Hn & Hh & Hm). cbn [fst snd] in *.
  unfold read_handle. rewrite Hn, Hh. cbn [bind].
  destruct Hm as [([->| ->] & ->)|(Hnone & Hempty & Hf)]; try reflexivity.
  destruct h as [s|]; [|congruence].
  assert (Py.truthy_str (Some s) = true) as ->.
  { simpl. destruct (String.eqb_spec s ""); [subst; congruence|reflexivity]. }
  rewrite Hf. reflexivity.
Qed.

Lemma comprehension_ranked_rows idx rows recs :
  Forall2 (ranked_row idx) rows recs ->
  Py.comprehension (read_handle idx) rows = Ok recs.
Proof.
  induction 1 as [|r rec rows recs Hr _ IH]; simpl; [reflexivity|].
  rewrite (read_handle_ranked_row Hr), IH. reflexivity.
Qed.

Lemma ranked_length recs :
  length (Py.sorted by_total true
            (fold_left (accum_step PrimFloat.add 0) recs [])) =
  length (first_seen (map fst recs)).
Proof.
  rewrite (Permutation_length (RankOrderFacts.ranked_perm recs)).
  rewrite <- (RankOrderFacts.totals_keys recs). unfold Dict.keys.
  now rewrite length_map.
Qed.
End RankRowFacts.

Module TrailingFacts.
Import ListFacts.
Section Loop.
Variable series : list (period * float).
Variable window : Z.
Hypothesis Hwindow : 1 <= window.
Variable ks : list period.
Hypothesis ks_nodup : NoDup ks.
Hypothesis ks_keys : forall k, In k ks -> In k (Dict.keys series).

Let w : nat := Z.to_nat window.
Let vs : list float := map (Dict.get_default 0 series) ks.

Definition Inv (n : nat) (st : trailing_state) : Prop :=
  q st = skipn (n - w) (firstn n vs) /\
  total st = total_after w vs n /\
  result_map st = combine (firstn n ks) (map (trailing_value w vs) (seq 0 n)).

Lemma vs_length : length vs = length ks.
Proof. apply length_map. Qed.

Lemma trailing_step_inv n ym st :
  nth_error ks n = Some ym -> Inv n st ->
  exists st', trailing_step series window ym st = Ok st' /\ Inv (S n) st'.
Proof.
  intros Hn (Hq & Ht & Hr).
  assert (Hlt : (n < length ks)%nat) by (apply nth_error_Some; congruence).
  assert (Hv : nth n vs 0 = Dict.get_default 0 series ym).
  { apply nth_error_nth. unfold vs. rewrite nth_error_map, Hn. reflexivity. }
  unfold trailing_step.
  rewrite (DictFacts.getitem_keys 0) by (apply ks_keys; eapply nth_error_In; eauto).
  cbn [bind]. rewrite <- Hv.
  assert (Hq1 : q st ++ [nth n vs 0] = skipn (n - w) (firstn (S n) vs)).
  { rewrite (firstn_succ_nth 0) by (rewrite vs_length; lia).
    rewrite skipn_app, length_firstn, vs_length, Hq.
    replace (n - w - Nat.min n (length ks))%nat with 0%nat by lia.
    reflexivity. }
  rewrite Hq1.
  assert (Hlen : length (skipn (n - w) (firstn (S n) vs)) = (S n - (n - w))%nat).
  { rewrite length_skipn, length_firstn, vs_length. lia. }
  assert (Hw1 : (1 <= w)%nat) by (unfold w; lia).
  assert (Hww : window = Z.of_nat w) by (unfold w; lia).
  rewrite Hlen.
  destruct (Z.gtb_spec (Z.of_nat (S n - (n - w))) window) as [Hgt|Hgt].
  - assert (Hwn : (w <= n)%nat) by lia.
    rewrite (skipn_nth_cons 0) by (rewrite length_firstn, vs_length; lia).
    cbn [bind]. rewrite length_skipn, length_firstn, vs_length.
    unfold Py.truediv_int.
    destruct (Z.eqb_spec (Z.of_nat (Nat.min (S n) (length ks) - S (n - w))) 0) as [E|E]; [lia|].
    cbn [bind]. eexists; split; [reflexivity|].
    unfold Inv; cbn [q total result_map]. repeat split.
    + f_equal. lia.
    + rewrite Ht. cbn [total_after].
      destruct (Nat.leb_spec w n); [|lia].
      rewrite nth_firstn. destruct (Nat.ltb_spec (n - w) (S n)); [reflexivity|lia].
    + rewrite Hr, DictFacts.set_new.
      2:{ unfold Dict.keys. rewrite map_fst_combine.
          - apply NoDup_nth_error_firstn; assumption.
          - rewrite length_firstn, length_map, length_seq. lia. }
      rewrite (firstn_succ_nth ym) by lia.
      rewrite seq_S, map_app. simpl map.
      rewrite combine_snoc by (rewrite length_firstn, length_map, length_seq; lia).
      rewrite (nth_error_nth _ _ _ Hn).
      f_equal. f_equal. f_equal. unfold trailing_value. cbn [total_after].
      destruct (Nat.leb_spec w n); [|lia].
      rewrite Ht, nth_firstn. destruct (Nat.ltb_spec (n - w) (S n)); [|lia].
      f_equal. f_equal. lia.
  - assert (Hwn : (n < w)%nat) by lia.
    cbn [bind]. rewrite Hlen.
    unfold Py.truediv_int.
    destruct (Z.eqb_spec (Z.of_nat (S n - (n - w))) 0) as [E|E]; [lia|].
    cbn [bind]. eexists; split; [reflexivity|].
    unfold Inv; cbn [q total result_map]. repeat split.
    + f_equal. lia.
    + rewrite Ht. cbn [total_after].
      destruct (Nat.leb_spec w n); [lia|reflexivity].
    + rewrite Hr, DictFacts.set_new.
      2:{ unfold Dict.keys. rewrite map_fst_combine.
          - apply NoDup_nth_error_firstn; assumption.
          - rewrite length_firstn, length_map, length_seq. lia. }
      rewrite (firstn_succ_nth ym) by lia.
      rewrite seq_S, map_app. simpl map.
      rewrite combine_snoc by (rewrite length_firstn, length_map, length_seq; lia).
      rewrite (nth_error_nth _ _ _ Hn).
      f_equal. f_equal. f_equal. unfold trailing_value. cbn [total_after].
      destruct (Nat.leb_spec w n); [lia|].
      rewrite Ht. f_equal. f_equal. lia.
Qed.

Lemma trailing_loop rest : forall n st,
  (n <= length ks)%nat -> skipn n ks = rest -> Inv n st ->
  exists st', Py.for_in rest (trailing_step series window) st = Ok st' /\
              Inv (length ks) st'.
Proof.
  induction rest as [|ym rest IH]; intros n st Hle Hrest Hinv.
  - exists st. split; [reflexivity|].
    apply (f_equal (@List.length _)) in Hrest. rewrite length_skipn in Hrest.
    simpl in Hrest. replace (length ks) with n by lia. assumption.
  - assert (Hlt : (n < length ks)%nat).
    { apply (f_equal (@List.length _)) in Hrest. rewrite length_skipn in Hrest.
      simpl in Hrest. lia. }
    assert (Hn : nth_error ks n = Some ym).
    { rewrite (skipn_nth_cons ym) in Hrest by assumption.
      injection Hrest as Hy _. rewrite <- Hy. apply nth_error_nth'. assumption. }
    destruct (trailing_step_inv Hn Hinv) as (st1 & Hstep & Hinv1).
    destruct (IH (S n) st1) as (st' & Hloop & Hinv'); [lia| |assumption|].
    { rewrite (skipn_nth_cons ym) in Hrest by assumption. now injection Hrest. }
    exists st'. split; [|assumption].
    simpl. rewrite Hstep. exact Hloop.
Qed.
End Loop.

Lemma trailing_average_exact series window :
  NoDup (Dict.keys series) -> 1 <= window ->
  let ks := Py.sorted Py.pair_ltb false (Dict.keys series) in
  let vs := map (Dict.get_default 0 series) ks in
  trailing_average series window =
  Ok (combine ks (map (trailing_value (Z.to_nat window) vs) (seq 0 (length ks)))).
Proof.
  intros Hnd Hw ks vs.
  assert (Hperm : Permutation ks (Dict.keys series)) by apply SortFacts.sorted_perm.
  destruct (@trailing_loop series window Hw ks) with (rest := ks) (n := 0%nat)
    (st := {| q := []; total := 0; result_map := [] |}) as (st' & Hloop & Hq & Ht & Hr).
  - eapply Permutation_NoDup; [symmetry; exact Hperm | exact Hnd].
  - intros k Hk. eapply Permutation_in; eauto.
  - lia.
  - reflexivity.
  - repeat split.
  - unfold trailing_average.
    change (Py.sorted Py.pair_ltb false (Dict.keys series)) with ks.
    rewrite Hloop. cbn [bind].
    rewrite Hr, firstn_all. reflexivity.
Qed.
End TrailingFacts.

Module TrailingOrderFacts.
Import ListFacts.

Lemma total_after_warmup w vs n :
  (n <= w)%nat -> (n <= length vs)%nat ->
  total_after w vs n = fold_left PrimFloat.add (firstn n vs) 0.
Proof.
  induction n as [|n IH]; intros Hw Hl; [reflexivity|].
  cbn [total_after]. destruct (Nat.leb_spec w n); [lia|].
  rewrite (firstn_succ_nth 0) by lia.
  rewrite fold_left_app, IH by lia. reflexivity.
Qed.

Lemma nth_error_combine_seq {A B} (f : nat -> B) (l : list A) (s i : nat) a :
  nth_error l i = Some a ->
  nth_error (combine l (map f (seq s (length l)))) i = Some (a, f (s + i)%nat).
Proof.
  revert s i; induction l as [|x l IH]; intros s [|i] Hi; simpl in *; try discriminate.
  - injection Hi as ->. now rewrite Nat.add_0_r.
  - rewrite (IH (S s) i Hi). do 3 f_equal. lia.
Qed.

Lemma sorted_unique {A} (R : A -> A -> Prop) (l1 l2 : list A) :
  (forall x y, R x y -> R y x -> False) -> (forall x, R x x -> False) ->
  StronglySorted R l1 -> StronglySorted R l2 -> Permutation l1 l2 -> l1 = l2.
Proof.
  intros Hasym Hirr. revert l2.
  induction l1 as [|a l1 IH]; intros l2 H1 H2 Hp.
  - apply Permutation_nil in Hp. now subst.
  - destruct l2 as [|b l2]; [apply Permutation_sym, Permutation_nil in Hp; discriminate|].
    apply StronglySorted_inv in H1 as [H1 Ha].
    apply StronglySorted_inv in H2 as [H2 Hb].
    rewrite Forall_forall in Ha, Hb.
    assert (a = b).
    { assert (Hin1 : In a (b :: l2)) by (eapply Permutation_in; [exact Hp|now left]).
      assert (Hin2 : In b (a :: l1)) by (eapply Permutation_in; [symmetry; exact Hp|now left]).
      destruct Hin1 as [->|Hin1]; [reflexivity|].
      destruct Hin2 as [->|Hin2]; [reflexivity|].
      exfalso. eapply Hasym; eauto. }
    subst b. f_equal. apply IH; auto.
    eapply Permutation_cons_inv; eauto.
Qed.

Lemma sorted_keys_strict (ks : list period) :
  NoDup ks ->
  StronglySorted (fun a b => Py.pair_ltb a b = true) (Py.sorted Py.pair_ltb false ks).
Proof.
  intros Hnd.
  assert (Hnd' : NoDup (Py.sorted Py.pair_ltb false ks)).
  { eapply Permutation_NoDup; [symmetry; apply SortFacts.sorted_perm|assumption]. }
  assert (Hs : StronglySorted (fun a b => Py.pair_ltb b a = false)
                 (Py.sorted Py.pair_ltb false ks)).
  { apply (SortFacts.sort_asc_sorted Py.pair_ltb (P := fun _ => True)).
    - intros; now apply SortFacts.pair_ltb_asym.
    - intros x y z _ _ _; apply SortFacts.pair_ltb_negtrans.
    - apply Forall_forall; auto. }
  induction Hs as [|a l Hs IH Ha]; constructor.
  - apply IH. now inversion Hnd'.
  - inversion Hnd' as [|? ? Hn _]; subst.
    rewrite Forall_forall in *. intros b Hb.
    apply SortFacts.pair_ltb_total; [auto|]. intros ->. contradiction.
Qed.

Lemma sorted_keys_perm (ks ks' : list period) :
  NoDup ks -> Permutation ks' ks ->
  Py.sorted Py.pair_ltb false ks' = Py.sorted Py.pair_ltb false ks.
Proof.
  intros Hnd Hp.
  apply (@sorted_unique _ (fun a b => Py.pair_ltb a b = true)).
  - intros x y Hxy Hyx. apply SortFacts.pair_ltb_asym in Hxy. congruence.
  - intros x Hx. pose proof (SortFacts.pair_ltb_asym _ _ Hx). congruence.
  - apply sorted_keys_strict. eapply Permutation_NoDup; [symmetry; exact Hp|assumption].
  - now apply sorted_keys_strict.
  - rewrite !SortFacts.sorted_perm. assumption.
Qed.

Lemma get_perm {V} (d d' : list (period * V)) k :
  NoDup (Dict.keys d) -> Permutation d' d -> Dict.get d' k = Dict.get d k.
Proof.
  intros Hnd Hp.
  assert (Hnd' : NoDup (Dict.keys d')).
  { eapply Permutation_NoDup; [|exact Hnd]. symmetry. now apply Permutation_map. }
  destruct (Dict.get d k) as [v|] eqn:E.
  - apply DictFacts.In_get; [assumption|].
    eapply Permutation_in; [symmetry; exact Hp|]. now apply DictFacts.get_In.
  - apply DictFacts.get_None_keys. apply DictFacts.get_None_keys in E.
    intros Hin. apply E. eapply Permutation_in; [|exact Hin].
    now apply Permutation_map.
Qed.
End TrailingOrderFacts.

(** * The claims *)

(** ** C1: the monthly weighted aggregation

    C1.  When the sheet yields a header and data rows that all read
    ([read_row] takes the period, the weight and the metric of a row, an
    empty metric string reading as 0.0), [monthly_weighted_avg] returns a
    mapping with one entry for every period of the rows, and nothing else; the
    value of a period [p] is [weighted_sum p / weight_total p] when
    [weight_total p] is not zero and exactly 0.0 when it is. *)
Theorem monthly_weighted_avg_correct (SHARED : list string) (zf : archive)
  (sheet : string) (header : row) (rows : list row)
  (recs : list (period * (float * float))) :
  iter_rows SHARED zf sheet = map Ok (header :: rows) ->
  Py.comprehension (read_row (column_index header)) rows = Ok recs ->
  exists m,
    monthly_weighted_avg SHARED zf sheet = Ok m /\
    Dict.keys m = first_seen (map fst recs) /\
    NoDup (Dict.keys m) /\
    (forall p, In p (Dict.keys m) <-> In p (map fst recs)) /\
    forall p, In p (map fst recs) ->
      Dict.get m p =
        Some (if PrimFloat.eqb (weight_total p recs) 0 then 0
              else weighted_sum p recs / weight_total p recs).
Proof.
  intros Hrows Hrecs.
  rewrite (MonthlyFacts.monthly_weighted_avg_unfold _ _ _ Hrows), Hrecs.
  cbn [bind]. eexists. split; [reflexivity|].
  rewrite MonthlyFacts.keys_map_values, AccumFacts.keys_fold.
  split; [reflexivity|].
  split; [apply AccumFacts.fold_add_key_NoDup; constructor|].
  split.
  - intros p. rewrite AccumFacts.fold_add_key_In. simpl. tauto.
  - intros p Hp.
    rewrite MonthlyFacts.get_map_values, AccumFacts.get_fold.
    assert (existsb (Py.eqb p) (map fst recs) = true) as ->
      by now apply DictFacts.existsb_eqb_In.
    cbn [option_map]. f_equal. unfold finalize.
    rewrite MonthlyFacts.cnt_fold, MonthlyFacts.ws_fold. reflexivity.
Qed.

Lemma monthly_weighted_avg_correct_witness :
  exists m,
    monthly_weighted_avg [] zf_scenario "All" = Ok m /\
    Dict.get m (2024, 1)%Z = Some 8.
Proof.
  destruct (@monthly_weighted_avg_correct [] zf_scenario "All"
              (map Some columns)
              [map Some ["2024"; "1"; "2"; "10"; "A"; "5"];
               map Some ["2024"; "1"; "1"; "4"; "B"; "5"]]
              [((2024, 1)%Z, (2, 10)); ((2024, 1)%Z, (1, 4))])
    as (m & Hm & _ & _ & _ & Hget).
  - vm_compute. reflexivity.
  - vm_compute. reflexivity.
  - exists m. split; [exact Hm|].
    rewrite (Hget (2024, 1)%Z (or_introl eq_refl)). vm_compute. reflexivity.
Defined.

(** ** C2: the trailing window smoother

    C2, as amended.  For a series with distinct periods and a window of at
    least one, [trailing_average] returns a mapping whose keys are the input
    periods sorted in ascending (year, month) order, whatever the order of the
    input mapping; the value of the [i]-th period is the running total over
    [min (i+1) w], where the running total adds every value in turn and
    subtracts the value that leaves the queue; as long as no value has left
    the queue ([i < w]) the running total is the sum of the values so far. *)
Theorem trailing_average_running_total (series : list (period * float)) (window : Z) :
  NoDup (Dict.keys series) -> 1 <= window ->
  let w := Z.to_nat window in
  let ks := Py.sorted Py.pair_ltb false (Dict.keys series) in
  let vs := map (Dict.get_default 0 series) ks in
  exists res,
    trailing_average series window = Ok res /\
    Dict.keys res = ks /\
    Permutation ks (Dict.keys series) /\
    StronglySorted (fun a b => Py.pair_ltb a b = true) ks /\
    (forall series', Permutation series' series ->
       trailing_average series' window = Ok res) /\
    forall i ym, nth_error ks i = Some ym ->
      Dict.get res ym =
        Some (total_after w vs (S i)
              / Py.float_of_int (Z.of_nat (Nat.min (S i) w))) /\
      ((i < w)%nat -> total_after w vs (S i) = window_sum w vs i).
Proof.
  intros Hnd Hw w ks vs.
  pose proof (@TrailingFacts.trailing_average_exact series window Hnd Hw) as Hex.
  cbv zeta in Hex. fold ks in Hex. fold vs in Hex. fold w in Hex.
  assert (Hperm : Permutation ks (Dict.keys series)) by apply SortFacts.sorted_perm.
  assert (Hnd' : NoDup ks) by (eapply Permutation_NoDup; [symmetry; exact Hperm|exact Hnd]).
  assert (Hlen : length ks = length (map (trailing_value w vs) (seq 0 (length ks)))).
  { now rewrite length_map, length_seq. }
  eexists. split; [exact Hex|].
  split; [unfold Dict.keys; now apply ListFacts.map_fst_combine|].
  split; [assumption|].
  split; [now apply TrailingOrderFacts.sorted_keys_strict|].
  split.
  - intros series' Hp.
    assert (Hk : Permutation (Dict.keys series') (Dict.keys series))
      by now apply Permutation_map.
    assert (Hnds : NoDup (Dict.keys series'))
      by (eapply Permutation_NoDup; [symmetry; exact Hk|exact Hnd]).
    rewrite (@TrailingFacts.trailing_average_exact series' window Hnds Hw). cbv zeta.
    rewrite (TrailingOrderFacts.sorted_keys_perm Hnd Hk). fold ks.
    do 4 f_equal. apply map_ext. intros k.
    unfold Dict.get_default. now rewrite (TrailingOrderFacts.get_perm k Hnd Hp).
  - intros i ym Hi.
    assert (Hlt : (i < length ks)%nat) by (apply nth_error_Some; congruence).
    split.
    + apply DictFacts.In_get.
      * unfold Dict.keys. rewrite ListFacts.map_fst_combine; assumption.
      * change (total_after w vs (S i) / Py.float_of_int (Z.of_nat (Nat.min (S i) w)))
          with (trailing_value w vs i).
        apply (nth_error_In _ i).
        now apply (TrailingOrderFacts.nth_error_combine_seq (trailing_value w vs) ks 0).
    + intros Hiw. unfold window_sum.
      replace (S i - w)%nat with 0%nat by lia.
      apply TrailingOrderFacts.total_after_warmup; [lia|].
      unfold vs. rewrite length_map. lia.
Qed.

Lemma trailing_average_running_total_witness :
  exists res,
    trailing_average series3 2 = Ok res /\
    Dict.keys res = [(2024, 1)%Z; (2024, 2)%Z; (2024, 3)%Z].
Proof.
  destruct (@trailing_average_running_total series3 2) as (res & H1 & H2 & _).
  - repeat constructor; simpl; intuition congruence.
  - lia.
  - exists res. split; [exact H1 | exact H2].
Defined.

(** C2, as stated, fails on the values 0.1, 0.2, 0.3 with a window of two:
    the third output is ((0.1 + 0.2) + 0.3 - 0.1) / 2 in binary64, which is
    not (0.2 + 0.3) / 2. *)
Lemma trailing_average_not_window_mean :
  ~ (forall (series : list (period * float)) (window : Z),
       NoDup (Dict.keys series) -> 1 <= window ->
       forall res i ym,
         trailing_average series window = Ok res ->
         nth_error (Py.sorted Py.pair_ltb false (Dict.keys series)) i = Some ym ->
         Dict.get res ym =
           Some (window_mean (Z.to_nat window)
                   (map (Dict.get_default 0 series)
                      (Py.sorted Py.pair_ltb false (Dict.keys series))) i)).
Proof.
  intros H.
  assert (Hnd : NoDup (Dict.keys series3)).
  { repeat constructor; simpl; intuition congruence. }
  specialize (H series3 2%Z Hnd ltac:(lia) _ 2%nat (2024, 3)%Z eq_refl eq_refl).
  apply (f_equal (fun o => match o with
                            | Some x => PrimFloat.eqb x 0.25
                            | None => false
                            end)) in H.
  vm_compute in H. discriminate.
Qed.

(** ** C3: the per-category aggregation

    C3 fails on the code: for a selected category with a period of zero total
    weight, [operator_trailing] divides by the zero weight (line 88 has no
    guard) and raises [ZeroDivisionError], where [monthly_weighted_avg]
    (line 44) gives the period the value 0.0. *)
Theorem operator_trailing_zero_weight :
  operator_trailing [] zf_zero_weight (map Some columns) [Some "A"] =
    Raise ZeroDivisionError /\
  monthly_weighted_avg [] zf_zero_weight "All" = Ok [((2024, 1)%Z, 0)].
Proof. split; vm_compute; reflexivity. Qed.

(** ** C4: the value of a cell

    C4, as amended.  A cell flagged as a shared-string reference whose text
    is not empty has its text converted to an integer [i]: for [0 <= i < N]
    the value is the [i]-th shared string, for [i >= N] or [i < -N] the
    lookup raises [IndexError], and a text that is no integer raises the
    exception of the conversion.  A cell without the flag, or whose text is
    empty, keeps its text, which is the empty string when the value node is
    absent. *)
Theorem cell_value_resolution (SHARED : list string) (c : cell) :
  let raw := raw_text c in
  let N := Z.of_nat (length SHARED) in
  (c_t c = Some "s" -> Py.truthy_str raw = true ->
     (forall e, Py.int raw = Raise e -> cell_value SHARED c = Raise e) /\
     (forall i, Py.int raw = Ok i ->
        (0 <= i < N ->
           exists s, nth_error SHARED (Z.to_nat i) = Some s /\
                     cell_value SHARED c = Ok (Some s)) /\
        (N <= i \/ i < - N -> cell_value SHARED c = Raise IndexError))) /\
  (c_t c <> Some "s" \/ Py.truthy_str raw = false ->
     cell_value SHARED c = Ok raw) /\
  (c_v c = None -> raw = Some "").
Proof.
  intros raw N. unfold cell_value. fold raw. split; [|split].
  - intros Ht Hraw. rewrite Ht, Hraw, Py.eqb_refl. cbn [andb]. split.
    + intros e He. now rewrite He.
    + intros i Hint. rewrite Hint. cbn [bind]. split; intros Hi.
      * destruct (ReaderFacts.index_in_range SHARED Hi) as (s & Hs & ->).
        exists s. split; [assumption|reflexivity].
      * now rewrite ReaderFacts.index_out_of_range.
  - intros [Ht|Hraw].
    + apply Py.eqb_neq in Ht. now rewrite Ht.
    + rewrite Hraw. now rewrite andb_false_r.
  - unfold raw, raw_text. now intros ->.
Qed.

Lemma cell_value_resolution_witness :
  cell_value ["a"; "b"] (shared_cell (Some (Some "1"))) = Ok (Some "b") /\
  cell_value ["a"; "b"] (shared_cell (Some (Some "2"))) = Raise IndexError /\
  cell_value ["a"; "b"] (text_cell "1") = Ok (Some "1").
Proof.
  pose proof (@cell_value_resolution ["a"; "b"] (shared_cell (Some (Some "1"))))
    as (H1 & _).
  pose proof (@cell_value_resolution ["a"; "b"] (shared_cell (Some (Some "2"))))
    as (H2 & _).
  pose proof (@cell_value_resolution ["a"; "b"] (text_cell "1")) as (_ & H3 & _).
  split; [|split].
  - destruct (proj1 (proj2 (H1 eq_refl eq_refl) 1%Z eq_refl)) as (s & Hs & Hv);
      [simpl; lia|].
    rewrite Hv. f_equal. injection Hs as <-. reflexivity.
  - apply (proj2 (proj2 (H2 eq_refl eq_refl) 2%Z eq_refl)). simpl. lia.
  - apply H3. left. discriminate.
Defined.

(** C4, as stated, fails on two flagged cells, with the shared strings a and
    b: a cell without a value node yields the empty string, neither a shared
    string nor an exception; and the text -1, an index outside 0..1, yields
    the last shared string instead of an exception. *)
Lemma flagged_cell_not_resolved :
  cell_value ["a"; "b"] (shared_cell None) = Ok (Some "") /\
  Py.int (Some "-1") = Ok (-1)%Z /\
  cell_value ["a"; "b"] (shared_cell (Some (Some "-1"))) = Ok (Some "b").
Proof. repeat split; vm_compute; reflexivity. Qed.

(** ** C5: the ranking of the categories

    C5, as amended.  When the sheet yields rows of which every one that
    differs from the header has a cell in the column name, its category, and
    a cell in the column total_bet_handle that is empty, counting as 0.0, or
    reads as a number, and no total of a category is a NaN, [top_operators]
    returns categories of the rows, as many as there are but no more than
    ten, each once, hence all of them when there are at most ten; a category
    placed before another has a total at least as large, as has every
    returned category compared with one left out; and of two categories with
    equal totals that are both returned, the one first encountered in the
    rows comes first. *)
Theorem top_operators_ranking (SHARED : list string) (zf : archive)
  (header : row) (rows : list row) (recs : list (option string * float)) :
  iter_rows SHARED zf "All" = map Ok rows ->
  Forall2 (ranked_row (column_index header))
    (filter (fun r => negb (Py.eqb r header)) rows) recs ->
  (forall c, In c (map fst recs) ->
     PrimFloat.is_nan (category_total c recs) = false) ->
  exists names,
    top_operators SHARED zf header = Ok names /\
    length names = Nat.min 10 (length (first_seen (map fst recs))) /\
    NoDup names /\
    (forall c, In c names -> In c (map fst recs)) /\
    ((length (first_seen (map fst recs)) <= 10)%nat ->
     forall c, In c (map fst recs) -> In c names) /\
    (forall a b, before a b names ->
       PrimFloat.leb (category_total b recs) (category_total a recs) = true) /\
    (forall a b, In a names -> In b (map fst recs) -> ~ In b names ->
       PrimFloat.leb (category_total b recs) (category_total a recs) = true) /\
    (forall a b, first_before a b (map fst recs) ->
       PrimFloat.eqb (category_total a recs) (category_total b recs) = true ->
       In b names -> before a b names).
Proof.
  intros Hrows Hrecs Hnan.
  apply RankRowFacts.comprehension_ranked_rows in Hrecs.
  rewrite (RankFacts.top_operators_unfold _ _ header _ Hrows), Hrecs. cbn [bind].
  pose proof (RankRowFacts.ranked_length recs) as Hlen.
  set (ranked := Py.sorted by_total true
                   (fold_left (accum_step PrimFloat.add 0) recs [])) in *.
  eexists. split; [reflexivity|].
  rewrite <- firstn_map.
  pose proof (RankOrderFacts.ranked_NoDup recs) as Hnd. fold ranked in Hnd.
  assert (Hkeys : forall c, In c (map fst ranked) <-> In c (map fst recs)).
  { intros c. rewrite <- (RankOrderFacts.totals_key_In recs). unfold Dict.keys.
    split; apply Permutation_in; [|symmetry]; apply Permutation_map,
      RankOrderFacts.ranked_perm. }
  split; [now rewrite length_firstn, length_map, Hlen|].
  split.
  { rewrite <- (firstn_skipn 10 (map fst ranked)) in Hnd.
    now apply NoDup_app_remove_r in Hnd. }
  split; [intros c Hc; apply Hkeys; eapply RankFacts.In_firstn; eauto|].
  split; [|split; [|split]].
  - intros Hle c Hc. rewrite firstn_all2; [now apply Hkeys|].
    now rewrite length_map, Hlen.
  - intros a b Hb. apply (@RankOrderFacts.ranked_desc recs Hnan).
    eapply RankFacts.before_firstn_inv; eauto.
  - intros a b Ha Hb Hnb. apply (@RankOrderFacts.ranked_desc recs Hnan).
    fold ranked. rewrite <- (firstn_skipn 10 (map fst ranked)).
    apply SortFacts.before_app_split; [assumption|].
    apply Hkeys in Hb. rewrite <- (firstn_skipn 10 (map fst ranked)) in Hb.
    apply in_app_or in Hb as [Hb|Hb]; [contradiction|assumption].
  - intros a b Hfb Heq Hb.
    apply SortFacts.before_firstn; [assumption| |assumption].
    apply RankOrderFacts.ranked_stable; [assumption| |assumption].
    apply Hkeys. eapply RankFacts.In_firstn; eauto.
Qed.

Lemma top_operators_ranking_witness :
  exists names,
    top_operators [] zf_ties (map Some columns) = Ok names /\
    length names = 3%nat /\
    before (Some "A") (Some "B") names.
Proof.
  destruct (@top_operators_ranking [] zf_ties (map Some columns)
              [map Some columns;
               map Some ["2024"; "1"; "1"; "2"; "A"; "60"];
               map Some ["2024"; "1"; "1"; "2"; "B"; "100"];
               map Some columns;
               map Some ["2024"; "2"; "1"; "2"; "C"; "250"];
               map Some ["2024"; "2"; "1"; "2"; "A"; "40"]]
              [(Some "A", 60); (Some "B", 100); (Some "C", 250); (Some "A", 40)])
    as (names & Hn & Hlen & _ & _ & _ & _ & _ & Htie).
  - vm_compute. reflexivity.
  - replace (filter _ _) with
      [map Some ["2024"; "1"; "1"; "2"; "A"; "60"];
       map Some ["2024"; "1"; "1"; "2"; "B"; "100"];
       map Some ["2024"; "2"; "1"; "2"; "C"; "250"];
       map Some ["2024"; "2"; "1"; "2"; "A"; "40"]]
      by (vm_compute; reflexivity).
    repeat (apply Forall2_cons;
            [eexists; split; [reflexivity|]; split; [reflexivity|];
             right; split; [discriminate|]; split; [discriminate|];
             vm_compute; reflexivity|]).
    apply Forall2_nil.
  - intros c Hc. simpl in Hc.
    repeat (destruct Hc as [<-|Hc]; [vm_compute; reflexivity|]). destruct Hc.
  - exists names. split; [exact Hn|]. split; [rewrite Hlen; vm_compute; reflexivity|].
    apply Htie.
    + split; [discriminate|]. exists [], [Some "B"; Some "C"; Some "A"].
      split; [reflexivity|]. simpl. tauto.
    + vm_compute. reflexivity.
    + vm_compute in Hn. injection Hn as <-. simpl. tauto.
Defined.

(** C5, as stated, fails on the three categories A, B and C with the handles
    1, nan and 2: a comparison with a NaN is false either way, the sort leaves
    the three in the order of the rows, and C follows A with a larger
    total. *)
Lemma nan_total_breaks_descending_order :
  Forall2 (ranked_row (column_index (map Some columns)))
    [map Some ["2024"; "1"; "1"; "2"; "A"; "1"];
     map Some ["2024"; "1"; "1"; "2"; "B"; "nan"];
     map Some ["2024"; "1"; "1"; "2"; "C"; "2"]] recs_nan /\
  top_operators [] zf_nan (map Some columns) =
    Ok [Some "A"; Some "B"; Some "C"] /\
  category_total (Some "A") recs_nan = 1 /\
  category_total (Some "C") recs_nan = 2 /\
  PrimFloat.leb (category_total (Some "C") recs_nan)
    (category_total (Some "A") recs_nan) = false.
Proof.
  split.
  { unfold recs_nan.
    repeat (apply Forall2_cons;
            [eexists; split; [reflexivity|]; split; [reflexivity|];
             right; split; [discriminate|]; split; [discriminate|];
             vm_compute; reflexivity|]).
    apply Forall2_nil. }
  repeat split; vm_compute; reflexivity.
Qed.

(** ** C6: empty and unreadable numeric cells

    C6, as amended.  In a data row whose year and month read, the weight cell
    is converted by [float] with no default: when the conversion raises, for
    the empty string with [ValueError], [monthly_weighted_avg] raises the
    same exception.  An empty metric cell reads as the metric 0.0 without an
    error. *)
Theorem monthly_weighted_avg_numeric_policy (SHARED : list string)
  (zf : archive) (sheet : string) (header : row) (rows1 : list row) (r : row)
  (rows2 : list row) (recs : list (period * (float * float))) (y m : Z)
  (wcell : option string) :
  let idx := column_index header in
  iter_rows SHARED zf sheet = map Ok (header :: rows1 ++ r :: rows2) ->
  Py.comprehension (read_row idx) rows1 = Ok recs ->
  (c <- column idx r "bet_year" ;; Py.int c) = Ok y ->
  (c <- column idx r "bet_month" ;; Py.int c) = Ok m ->
  column idx r "count_of_bets" = Ok wcell ->
  (forall e, Py.float wcell = Raise e ->
     monthly_weighted_avg SHARED zf sheet = Raise e) /\
  (wcell = Some "" -> monthly_weighted_avg SHARED zf sheet = Raise ValueError) /\
  (forall count, Py.float wcell = Ok count ->
     column idx r "avg_leg_count_inclusiveofstraightbets" = Ok (Some "") ->
     read_row idx r = Ok ((y, m), (count, 0))).
Proof.
  intros idx Hrows Hrecs Hy Hm Hw.
  assert (Hraise : forall e, Py.float wcell = Raise e ->
                     monthly_weighted_avg SHARED zf sheet = Raise e).
  { intros e He. eapply MonthlyErrorFacts.monthly_weighted_avg_raise; [exact Hrows|exact Hrecs|].
    fold idx. unfold read_row. rewrite Hy, Hm, Hw. simpl. now rewrite He. }
  split; [exact Hraise|]. split.
  - intros ->. apply Hraise. reflexivity.
  - intros count Hc Hmc. unfold read_row. rewrite Hy, Hm, Hw, Hmc. simpl.
    now rewrite Hc.
Qed.

Lemma monthly_weighted_avg_numeric_policy_witness :
  monthly_weighted_avg [] zf_empty_weight "All" = Raise ValueError.
Proof.
  refine (proj1 (proj2 (@monthly_weighted_avg_numeric_policy [] zf_empty_weight
    "All" (map Some columns) []
    [Some "2024"; Some "1"; Some ""; Some "10"; Some "A"; Some "5"] [] []
    2024 1 (Some "") _ _ _ _ _)) eq_refl); vm_compute; reflexivity.
Defined.

(** C6, as stated, fails on a data row whose weight cell has no value: the
    row reaches the aggregation with the empty string as its weight, and the
    aggregation raises [ValueError] instead of counting the weight as 0.0. *)
Lemma empty_weight_raises :
  iter_rows [] zf_empty_weight "All" =
    [Ok (map Some columns);
     Ok [Some "2024"; Some "1"; Some ""; Some "10"; Some "A"; Some "5"]] /\
  monthly_weighted_avg [] zf_empty_weight "All" = Raise ValueError.
Proof. split; vm_compute; reflexivity. Qed.

(** ** C7: a header without a required column

    C7, as amended.  When the header lacks one of the columns the aggregation
    reads, nothing is raised for the header alone: with no data row the
    aggregation returns the empty mapping.  With a data row the aggregation
    raises while it reads the first data row, whatever follows: the year, the
    month, the count and the metric are read in this order, and the exception
    is [KeyError] when the reads before the missing column succeed, as they
    do for the year, which is read first; otherwise it is the exception of
    the first of these reads that fails. *)
Theorem monthly_weighted_avg_missing_column (SHARED : list string)
  (zf : archive) (sheet : string) (header : row) (name : string) :
  let idx := column_index header in
  In name required_columns -> Dict.get idx (Some name) = None ->
  (iter_rows SHARED zf sheet = [Ok header] ->
     monthly_weighted_avg SHARED zf sheet = Ok []) /\
  (forall r rest, iter_rows SHARED zf sheet = Ok header :: Ok r :: rest ->
     exists e, read_row idx r = Raise e /\
               monthly_weighted_avg SHARED zf sheet = Raise e /\
               (name = "bet_year" -> e = KeyError) /\
               (Forall (fun o => o = Ok tt) (reads_before idx r name) ->
                e = KeyError) /\
               (forall e', first_failure (reads_before idx r name) = Some e' ->
                e = e')).
Proof.
  intros idx Hin Hg. split.
  - intros Hrows. unfold monthly_weighted_avg. rewrite Hrows. reflexivity.
  - intros r rest Hrows.
    pose proof (@MonthlyErrorFacts.read_row_missing idx r name Hin Hg) as He.
    eexists. split; [exact He|]. split; [|split; [|split]].
    + unfold monthly_weighted_avg. rewrite Hrows. cbn [Py.next bind Py.for_each].
      fold idx. rewrite He. reflexivity.
    + intros ->. reflexivity.
    + intros Hall. now rewrite (MonthlyErrorFacts.first_failure_none Hall).
    + intros e' ->. reflexivity.
Qed.

Lemma monthly_weighted_avg_missing_column_witness :
  monthly_weighted_avg [] zf_no_month "All" = Raise KeyError.
Proof.
  destruct (proj2 (@monthly_weighted_avg_missing_column [] zf_no_month "All"
              (map Some ["bet_year"; "count_of_bets";
                         "avg_leg_count_inclusiveofstraightbets"])
              "bet_month" (or_intror (or_introl eq_refl)) eq_refl)
            (map Some ["2024"; "1"; "10"]) [] eq_refl)
    as (e & _ & Hm & _ & Hk & _).
  rewrite Hm. f_equal. apply Hk.
  repeat constructor.
Defined.

(** C7, as stated, fails on a sheet that holds only a header without the
    required columns: no exception is raised and the result is empty. *)
Lemma missing_column_without_rows :
  iter_rows [] zf_header_only "All" = [Ok [Some "name"; Some "total_bet_handle"]] /\
  Dict.get (column_index [Some "name"; Some "total_bet_handle"]) (Some "bet_year") = None /\
  monthly_weighted_avg [] zf_header_only "All" = Ok [].
Proof. repeat split; vm_compute; reflexivity. Qed.

(** ** C8: the lengths of the rows

    C8, as amended.  When the cells of the row elements of a sheet resolve,
    [iter_rows] yields one row for every row element, in order, each with as
    many values as the element has cells; no length is compared with the
    header's, and no exception is raised for a row that is shorter or
    longer. *)
Theorem iter_rows_lengths (SHARED : list string) (zf : archive)
  (sheet path : string) (data : list element) :
  Dict.get SHEETS sheet = Some path ->
  Dict.get zf ("xl/" ++ path)%string = Some data ->
  (forall elem c, In elem data -> is_row elem = true -> In c (cells elem) ->
     exists v, cell_value SHARED c = Ok v) ->
  exists rows,
    iter_rows SHARED zf sheet = map Ok rows /\
    map (@List.length _) rows =
      map (fun elem => length (cells elem)) (filter is_row data).
Proof.
  intros Hs Hz Hcells. unfold iter_rows, Dict.getitem.
  rewrite Hs. cbn [bind]. rewrite Hz.
  now apply ReaderFacts.rows_of_all.
Qed.

Lemma iter_rows_lengths_witness :
  exists rows, iter_rows [] zf_ragged "All" = map Ok rows /\
               map (@List.length _) rows = [6; 5; 7]%nat.
Proof.
  destruct (@iter_rows_lengths [] zf_ragged "All" "worksheets/sheet1.xml"
              (sheet_of [columns; ["2024"; "1"; "2"; "10"; "A"];
                         ["2024"; "1"; "1"; "4"; "B"; "5"; "extra"]])
              eq_refl eq_refl) as (rows & Hrows & Hlen).
  - intros elem c He _ Hc. simpl in He.
    repeat (destruct He as [<-|He];
            [simpl in Hc;
             repeat (destruct Hc as [<-|Hc]; [eexists; reflexivity|]);
             destruct Hc|]).
    destruct He.
  - exists rows. split; [exact Hrows|exact Hlen].
Defined.

(** C8, as stated, fails on a sheet with a header of six cells and data rows
    of five and seven cells: all three rows are yielded, and the aggregation
    returns its result without an exception. *)
Lemma ragged_rows_accepted :
  iter_rows [] zf_ragged "All" =
    [Ok (map Some columns);
     Ok (map Some ["2024"; "1"; "2"; "10"; "A"]);
     Ok (map Some ["2024"; "1"; "1"; "4"; "B"; "5"; "extra"])] /\
  monthly_weighted_avg [] zf_ragged "All" = Ok [((2024, 1)%Z, 8)].
Proof. split; vm_compute; reflexivity. Qed.

(** ** C10: rows equal to the header

    C10.  [top_operators] leaves out of the totals every row equal to the
    header it is given: two sheets whose row streams differ only by such
    rows, wherever they stand, have the same ranking. *)
Theorem top_operators_skips_header_rows (SHARED : list string)
  (zf zf' : archive) (header : row) :
  iter_rows SHARED zf' "All" =
    drop_header_rows header (iter_rows SHARED zf "All") ->
  top_operators SHARED zf' header = top_operators SHARED zf header.
Proof.
  intros Hrows. unfold top_operators. rewrite Hrows.
  rewrite (RankFacts.for_each_drop_header header
             (fun r totals =>
                '(name, handle) <- read_handle (column_index header) r ;;
                Ok (add_handle totals name handle))).
  reflexivity.
Qed.

Lemma top_operators_skips_header_rows_witness :
  top_operators [] zf_ties_clean (map Some columns) =
  top_operators [] zf_ties (map Some columns).
Proof.
  apply top_operators_skips_header_rows. vm_compute. reflexivity.
Defined.

(** The header repeated among the data rows is dropped, and A, met before B
    with the same total, is ranked before it. *)
Example top_operators_ties :
  top_operators [] zf_ties (map Some columns) =
    Ok [Some "C"; Some "A"; Some "B"].
Proof. vm_compute. reflexivity. Qed.

(** * Further properties of the program *)

Module StreamFacts.

Lemma rows_of_app SHARED (evs1 evs2 : list element) rows1 :
  rows_of SHARED evs1 = map Ok rows1 ->
  rows_of SHARED (evs1 ++ evs2) = map Ok rows1 ++ rows_of SHARED evs2.
Proof.
  revert rows1; induction evs1 as [|elem evs1 IH]; intros rows1 H1.
  - destruct rows1; [reflexivity|discriminate].
  - cbn [rows_of app] in *. destruct (is_row elem); [|auto].
    destruct (Py.comprehension (cell_value SHARED) (cells elem)) as [r|e].
    + destruct rows1 as [|r1 rows1]; [discriminate|].
      cbn [map] in H1. injection H1 as Hr H1. subst r1.
      cbn [map app]. now rewrite (IH rows1 H1).
    + destruct rows1; discriminate.
Qed.

Lemma for_each_app_Ok {A S} (g1 g2 : list (result A)) (body : A -> S -> result S) :
  forall st st1,
  Py.for_each g1 body st = Ok st1 ->
  Py.for_each (g1 ++ g2) body st = Py.for_each g2 body st1.
Proof.
  induction g1 as [|[a|e] g1 IH]; intros st st1; cbn [Py.for_each app].
  - now intros [= ->].
  - destruct (body a st) as [s|e]; cbn [bind]; [apply IH|discriminate].
  - discriminate.
Qed.

Lemma iter_rows_data SHARED zf sheet path data :
  Dict.get SHEETS sheet = Some path ->
  Dict.get zf ("xl/" ++ path)%string = Some data ->
  iter_rows SHARED zf sheet = rows_of SHARED data.
Proof.
  intros Hs Hz. unfold iter_rows, Dict.getitem. rewrite Hs. cbn [bind].
  now rewrite Hz.
Qed.
End StreamFacts.

(** X1.  A sheet name that [SHEETS] does not hold, or whose part the archive
    lacks, makes the first [next] of [iter_rows] raise [KeyError]: the
    aggregation raises it, and so do the ranking and the per-category
    aggregation when the sheet is All. *)
Theorem iter_rows_unknown_sheet (SHARED : list string) (zf : archive)
  (sheet : string) (header : row) (operators : list (option string)) :
  Dict.get SHEETS sheet = None \/
  (exists path, Dict.get SHEETS sheet = Some path /\
                Dict.get zf ("xl/" ++ path)%string = None) ->
  iter_rows SHARED zf sheet = [Raise KeyError] /\
  monthly_weighted_avg SHARED zf sheet = Raise KeyError /\
  (sheet = "All" ->
     top_operators SHARED zf header = Raise KeyError /\
     operator_trailing SHARED zf header operators = Raise KeyError).
Proof.
  intros H.
  assert (Hrows : iter_rows SHARED zf sheet = [Raise KeyError]).
  { unfold iter_rows, Dict.getitem.
    destruct H as [->|(path & -> & Hz)]; [reflexivity|].
    cbn [bind]. now rewrite Hz. }
  split; [exact Hrows|]. split.
  - unfold monthly_weighted_avg. now rewrite Hrows.
  - intros ->. split.
    + unfold top_operators. now rewrite Hrows.
    + unfold operator_trailing. now rewrite Hrows.
Qed.

Lemma iter_rows_unknown_sheet_witness :
  monthly_weighted_avg [] zf_scenario "Live" = Raise KeyError /\
  monthly_weighted_avg [] zf_scenario "Prematch" = Raise KeyError.
Proof.
  split.
  - refine (proj1 (proj2 (@iter_rows_unknown_sheet [] zf_scenario "Live" [] [] _))).
    right. exists "worksheets/sheet2.xml". split; reflexivity.
  - refine (proj1 (proj2 (@iter_rows_unknown_sheet [] zf_scenario "Prematch" [] [] _))).
    left. reflexivity.
Defined.

(** X2.  [iter_rows] yields the rows that precede a row element with a cell
    that raises, then raises the exception of that cell and yields nothing
    more; a loop over the stream that got through the preceding rows ends
    with that exception. *)
Theorem iter_rows_stops_at_first_error (SHARED : list string) (zf : archive)
  (sheet path : string) (evs1 evs2 : list element) (bad : element)
  (rows1 : list row) (e : exn) :
  Dict.get SHEETS sheet = Some path ->
  Dict.get zf ("xl/" ++ path)%string = Some (evs1 ++ bad :: evs2) ->
  rows_of SHARED evs1 = map Ok rows1 ->
  is_row bad = true ->
  Py.comprehension (cell_value SHARED) (cells bad) = Raise e ->
  iter_rows SHARED zf sheet = map Ok rows1 ++ [Raise e] /\
  forall (S : Type) (body : row -> S -> result S) (st st1 : S),
    Py.for_each (map Ok rows1) body st = Ok st1 ->
    Py.for_each (iter_rows SHARED zf sheet) body st = Raise e.
Proof.
  intros Hs Hz H1 Hrow Hbad.
  assert (Hrows : iter_rows SHARED zf sheet = map Ok rows1 ++ [Raise e]).
  { erewrite StreamFacts.iter_rows_data by eassumption.
    erewrite StreamFacts.rows_of_app by eassumption.
    cbn [rows_of]. now rewrite Hrow, Hbad. }
  split; [exact Hrows|].
  intros S body st st1 Hfor. rewrite Hrows.
  erewrite StreamFacts.for_each_app_Ok by eassumption. reflexivity.
Qed.

Lemma iter_rows_stops_at_first_error_witness :
  iter_rows ["a"] zf_corrupt "All" =
    [Ok [Some "name"]; Ok [Some "A"]; Raise IndexError].
Proof.
  refine (proj1 (@iter_rows_stops_at_first_error ["a"] zf_corrupt "All"
    "worksheets/sheet1.xml" [text_row ["name"]; text_row ["A"]]
    [text_row ["B"]] (cells_row [shared_cell (Some (Some "5"))])
    [[Some "name"]; [Some "A"]] IndexError _ _ _ _ _)); reflexivity.
Defined.

Module IndexFacts.

Lemma enumerate_from_snoc {A} (l : list A) : forall (s : Z) (a : A),
  Py.enumerate_from s (l ++ [a]) =
  Py.enumerate_from s l ++ [((s + Z.of_nat (length l))%Z, a)].
Proof.
  induction l as [|x l IH]; intros s a; cbn [Py.enumerate_from app length].
  - now rewrite Z.add_0_r.
  - rewrite IH.
    replace (s + 1 + Z.of_nat (length l))%Z
      with (s + Z.of_nat (S (length l)))%Z by lia.
    reflexivity.
Qed.

Lemma column_index_snoc (header : row) (h : option string) :
  column_index (header ++ [h]) =
  Dict.set (column_index header) h (Z.of_nat (length header)).
Proof.
  unfold column_index, Py.enumerate.
  rewrite enumerate_from_snoc, fold_left_app. reflexivity.
Qed.

Lemma column_index_get (header : row) (h : option string) :
  match Dict.get (column_index header) h with
  | Some i =>
      (0 <= i)%Z /\ nth_error header (Z.to_nat i) = Some h /\
      forall j, (Z.to_nat i < j)%nat -> nth_error header j <> Some h
  | None => ~ In h header
  end.
Proof.
  induction header as [|h' header IH] using rev_ind.
  - simpl. tauto.
  - rewrite column_index_snoc.
    destruct (Py.eqb_spec h' h) as [->|Hne].
    + rewrite DictFacts.get_set_eq. rewrite Nat2Z.id.
      split; [lia|]. split.
      * rewrite nth_error_app2, Nat.sub_diag by lia. reflexivity.
      * intros j Hj Hn.
        assert (nth_error (header ++ [h]) j = None).
        { apply nth_error_None. rewrite length_app. simpl. lia. }
        congruence.
    + rewrite DictFacts.get_set_neq by assumption.
      destruct (Dict.get (column_index header) h) as [i|].
      * destruct IH as (Hi & Hn & Hlast).
        assert (Hlt : (Z.to_nat i < length header)%nat)
          by (apply nth_error_Some; congruence).
        split; [assumption|]. split.
        -- rewrite nth_error_app1 by assumption. assumption.
        -- intros j Hj.
           destruct (Nat.lt_ge_cases j (length header)).
           ++ rewrite nth_error_app1 by assumption. auto.
           ++ rewrite nth_error_app2 by assumption.
              destruct (j - length header)%nat as [|[|k]]; simpl; congruence.
      * rewrite in_app_iff. simpl. intuition congruence.
Qed.
End IndexFacts.

(** X3.  The column index maps a name of the header to the position of its
    last occurrence, and holds no other name. *)
Theorem column_index_last_occurrence (header : row) (h : option string) :
  (In h header ->
     exists i, Dict.get (column_index header) h = Some (Z.of_nat i) /\
               nth_error header i = Some h /\
               forall j, (i < j)%nat -> nth_error header j <> Some h) /\
  (~ In h header -> Dict.get (column_index header) h = None).
Proof.
  pose proof (IndexFacts.column_index_get header h) as H.
  destruct (Dict.get (column_index header) h) as [i|].
  - destruct H as (Hi & Hn & Hlast). split.
    + intros _. exists (Z.to_nat i). rewrite Z2Nat.id by assumption. auto.
    + intros Hnot. exfalso. apply Hnot. eapply nth_error_In; eauto.
  - split; [contradiction|reflexivity].
Qed.

Lemma column_index_last_occurrence_witness :
  Dict.get (column_index [Some "name"; Some "x"; Some "name"]) (Some "name")
    = Some 2%Z /\
  Dict.get (column_index [Some "name"; Some "x"; Some "name"]) (Some "y") = None.
Proof.
  split.
  - destruct (proj1 (@column_index_last_occurrence
                       [Some "name"; Some "x"; Some "name"] (Some "name")))
      as (i & Hi & _ & _); [simpl; auto|].
    reflexivity.
  - apply (proj2 (@column_index_last_occurrence
                    [Some "name"; Some "x"; Some "name"] (Some "y"))).
    simpl. intuition discriminate.
Defined.

(** X4.  A flagged cell whose text is a negative integer [i] with
    [-N <= i < 0] resolves to the shared string at position [N + i], counted
    from the end of the table, without an exception. *)
Theorem cell_value_negative_index (SHARED : list string) (c : cell) (i : Z) :
  c_t c = Some "s" -> Py.truthy_str (raw_text c) = true ->
  Py.int (raw_text c) = Ok i ->
  (- Z.of_nat (length SHARED) <= i < 0)%Z ->
  exists s,
    nth_error SHARED (Z.to_nat (i + Z.of_nat (length SHARED))%Z) = Some s /\
    cell_value SHARED c = Ok (Some s).
Proof.
  intros Ht Hraw Hint Hi. unfold cell_value.
  rewrite Ht, Hraw, Py.eqb_refl, Hint. cbn [andb bind].
  unfold Py.index.
  destruct (Z.ltb_spec i 0); [|lia].
  destruct (Z.ltb_spec (i + Z.of_nat (length SHARED))%Z 0); [lia|].
  destruct (Z.leb_spec (Z.of_nat (length SHARED)) (i + Z.of_nat (length SHARED))%Z);
    [lia|].
  cbn [orb].
  destruct (nth_error SHARED (Z.to_nat (i + Z.of_nat (length SHARED))%Z)) as [s|] eqn:E.
  - exists s. split; reflexivity.
  - apply nth_error_None in E. lia.
Qed.

Lemma cell_value_negative_index_witness :
  cell_value ["a"; "b"; "c"] (shared_cell (Some (Some "-2"))) = Ok (Some "b").
Proof.
  destruct (@cell_value_negative_index ["a"; "b"; "c"]
              (shared_cell (Some (Some "-2"))) (-2)%Z eq_refl eq_refl eq_refl)
    as (s & Hs & Hv); [simpl; lia|].
  rewrite Hv. vm_compute in Hs. injection Hs as <-. reflexivity.
Defined.

(** X6.  On a sheet without any row the aggregation and the per-category
    aggregation raise [StopIteration], from the [next] that reads the
    header, while the ranking, which makes no such call, returns the empty
    list. *)
Theorem empty_sheet_behaviour (SHARED : list string) (zf : archive)
  (header : row) (operators : list (option string)) :
  iter_rows SHARED zf "All" = [] ->
  monthly_weighted_avg SHARED zf "All" = Raise StopIteration /\
  operator_trailing SHARED zf header operators = Raise StopIteration /\
  top_operators SHARED zf header = Ok [].
Proof.
  intros Hrows. unfold monthly_weighted_avg, operator_trailing, top_operators.
  rewrite Hrows. repeat split.
Qed.

Lemma empty_sheet_behaviour_witness :
  monthly_weighted_avg [] [("xl/worksheets/sheet1.xml", sheet_of [])] "All"
    = Raise StopIteration.
Proof.
  apply (@empty_sheet_behaviour [] [("xl/worksheets/sheet1.xml", sheet_of [])]
           [] []).
  reflexivity.
Defined.

(** X7.  [trailing_average] returns the empty mapping for an empty series,
    whatever the window, and raises [ZeroDivisionError] for a series that is
    not empty when the window is zero or negative: the queue is emptied
    before the division by its length. *)
Theorem trailing_average_window_bounds (series : list (period * float))
  (window : Z) :
  (series = [] -> trailing_average series window = Ok []) /\
  (series <> [] -> (window <= 0)%Z ->
     trailing_average series window = Raise ZeroDivisionError).
Proof.
  split.
  - intros ->. reflexivity.
  - intros Hne Hw. unfold trailing_average.
    pose proof (SortFacts.sorted_perm Py.pair_ltb false (Dict.keys series)) as Hp.
    destruct (Py.sorted Py.pair_ltb false (Dict.keys series)) as [|ym ks].
    + apply Permutation_nil in Hp. destruct series; [congruence|discriminate].
    + assert (Hin : In ym (Dict.keys series))
        by (eapply Permutation_in; [exact Hp|now left]).
      cbn [Py.for_in]. unfold trailing_step at 1.
      rewrite (DictFacts.getitem_keys 0) by assumption.
      cbn [bind q total app length].
      destruct (Z.gtb_spec (Z.of_nat 1) window); [|lia].
      reflexivity.
Qed.

Lemma trailing_average_window_bounds_witness :
  trailing_average series3 0 = Raise ZeroDivisionError.
Proof.
  apply (proj2 (@trailing_average_window_bounds series3 0)); [discriminate|lia].
Defined.

(** X5.  The table built at line 16 has one entry for every text element, so
    that a flagged cell whose text is the index [i] resolves to the text of
    the [i]-th element, and to the empty string when that element has no
    text. *)
Theorem shared_string_resolution (texts : list (option string)) (c : cell)
  (i : Z) (t : option string) :
  c_t c = Some "s" -> Py.truthy_str (raw_text c) = true ->
  Py.int (raw_text c) = Ok i -> (0 <= i)%Z ->
  nth_error texts (Z.to_nat i) = Some t ->
  length (load_shared texts) = length texts /\
  cell_value (load_shared texts) c =
    Ok (Some match t with
             | Some s => s
             | None => ""
             end).
Proof.
  intros Ht Hraw Hint Hi Hn.
  assert (Hlen : length (load_shared texts) = length texts)
    by apply length_map.
  split; [exact Hlen|].
  unfold cell_value. rewrite Ht, Hraw, Py.eqb_refl, Hint. cbn [andb bind].
  assert (Hlt : (Z.to_nat i < length texts)%nat)
    by (apply nth_error_Some; congruence).
  destruct (@ReaderFacts.index_in_range _ (load_shared texts) i) as (s & Hs & ->);
    [rewrite Hlen; lia|].
  cbn [bind]. unfold load_shared in Hs. rewrite nth_error_map, Hn in Hs.
  cbn [option_map] in Hs. congruence.
Qed.

Lemma shared_string_resolution_witness :
  cell_value (load_shared [Some "a"; None; Some "c"])
    (shared_cell (Some (Some "1"))) = Ok (Some "") /\
  cell_value (load_shared [Some "a"; None; Some "c"])
    (shared_cell (Some (Some "2"))) = Ok (Some "c").
Proof.
  split.
  - apply (proj2 (@shared_string_resolution [Some "a"; None; Some "c"]
                    (shared_cell (Some (Some "1"))) 1%Z None
                    eq_refl eq_refl eq_refl ltac:(lia) eq_refl)).
  - apply (proj2 (@shared_string_resolution [Some "a"; None; Some "c"]
                    (shared_cell (Some (Some "2"))) 2%Z (Some "c")
                    eq_refl eq_refl eq_refl ltac:(lia) eq_refl)).
Defined.

Module LoopFacts.

Lemma for_each_invariant {A S} (P : S -> Prop) (Q : A -> Prop)
  (g : list (result A)) (body : A -> S -> result S) :
  (forall a, In (Ok a) g -> Q a) ->
  (forall a st st', Q a -> P st -> body a st = Ok st' -> P st') ->
  forall st st', P st -> Py.for_each g body st = Ok st' -> P st'.
Proof.
  intros HQ Hbody. induction g as [|[a|e] g IH]; intros st st' HP;
    cbn [Py.for_each].
  - now intros [= <-].
  - destruct (body a st) as [s|e] eqn:E; cbn [bind]; [|discriminate].
    apply IH.
    + intros a' Ha'. apply HQ. now right.
    + eapply Hbody; eauto. apply HQ. now left.
  - discriminate.
Qed.

Lemma for_each_filter_skip {A S} (skip : A -> bool)
  (body : A -> S -> result S) (g : list (result A)) :
  (forall a st, skip a = true -> body a st = Ok st) ->
  forall st,
  Py.for_each (filter (fun o => match o with
                                | Ok a => negb (skip a)
                                | Raise _ => true
                                end) g) body st =
  Py.for_each g body st.
Proof.
  intros Hskip. induction g as [|[a|e] g IH]; intros st;
    [reflexivity| |reflexivity].
  cbn [filter]. destruct (skip a) eqn:E; cbn [negb Py.for_each].
  - rewrite (Hskip a st E). cbn [bind]. apply IH.
  - destruct (body a st); cbn [bind]; auto.
Qed.
Lemma for_in_ext {A S} (body body' : A -> S -> result S) (l : list A) :
  (forall a st, body a st = body' a st) ->
  forall st, Py.for_in l body st = Py.for_in l body' st.
Proof.
  intros Hb. induction l as [|a l IH]; intros st; cbn [Py.for_in];
    [reflexivity|].
  rewrite Hb. destruct (body' a st); cbn [bind]; auto.
Qed.
End LoopFacts.

Module RankBoundFacts.

Lemma top_operators_sources (SHARED : list string) (zf : archive)
  (header : row) (names : list (option string)) :
  top_operators SHARED zf header = Ok names ->
  (length names <= 10)%nat /\
  NoDup names /\
  forall n, In n names ->
    exists r, In (Ok r) (iter_rows SHARED zf "All") /\ r <> header /\
              column (column_index header) r "name" = Ok n.
Proof.
  unfold top_operators. cbv zeta.
  destruct (Py.for_each _ _ _) as [totals|e] eqn:Hfor; cbn [bind]; [|discriminate].
  intros Hn.
  assert (Hn' : map fst (firstn 10 (Py.sorted by_total true totals)) = names)
    by congruence.
  clear Hn. subst names.
  assert (Hinv : NoDup (Dict.keys totals) /\
                 forall n, In n (Dict.keys totals) ->
                   exists r, In (Ok r) (iter_rows SHARED zf "All") /\
                             r <> header /\
                             column (column_index header) r "name" = Ok n).
  { revert Hfor.
    apply (@LoopFacts.for_each_invariant row _
             (fun totals => NoDup (Dict.keys totals) /\
                forall n, In n (Dict.keys totals) ->
                  exists r, In (Ok r) (iter_rows SHARED zf "All") /\
                            r <> header /\
                            column (column_index header) r "name" = Ok n)
             (fun r => In (Ok r) (iter_rows SHARED zf "All"))).
    - auto.
    - intros r st st' Hr (Hnd & Hsrc).
      destruct (Py.eqb_spec r header) as [->|Hne]; [now intros [= <-]|].
      unfold read_handle.
      destruct (column (column_index header) r "name") as [n|] eqn:En;
        cbn [bind]; [|discriminate].
      destruct (column (column_index header) r "total_bet_handle") as [h|];
        cbn [bind]; [|discriminate].
      destruct (if Py.truthy_str h then Py.float h else Ok 0) as [x|];
        cbn [bind]; [|discriminate].
      intros [= <-]. unfold add_handle. rewrite DictFacts.keys_set. split.
      + now apply DictFacts.add_key_NoDup.
      + intros n' Hn'. apply DictFacts.add_key_In in Hn' as [Hn'| ->]; eauto.
    - split; [constructor|]. intros n []. }
  destruct Hinv as (Hnd & Hsrc).
  assert (Hperm : Permutation (map fst (Py.sorted by_total true totals))
                    (Dict.keys totals)).
  { apply Permutation_map, SortFacts.sorted_perm. }
  rewrite <- firstn_map.
  split; [rewrite length_firstn; lia|]. split.
  - assert (Hnd' : NoDup (map fst (Py.sorted by_total true totals)))
      by (eapply Permutation_NoDup; [symmetry; exact Hperm|exact Hnd]).
    rewrite <- (firstn_skipn 10) in Hnd'. now apply NoDup_app_remove_r in Hnd'.
  - intros n Hn. apply Hsrc. eapply Permutation_in; [exact Hperm|].
    eapply RankFacts.In_firstn; eauto.
Qed.
End RankBoundFacts.

(** X8.  Whenever [top_operators] returns, it returns at most ten names,
    all distinct, each of them the name of a yielded row that differs from
    the header. *)
Theorem top_operators_bounds (SHARED : list string) (zf : archive)
  (header : row) (names : list (option string)) :
  top_operators SHARED zf header = Ok names ->
  (length names <= 10)%nat /\
  NoDup names /\
  forall n, In n names ->
    exists r, In (Ok r) (iter_rows SHARED zf "All") /\ r <> header /\
              column (column_index header) r "name" = Ok n.
Proof. apply RankBoundFacts.top_operators_sources. Qed.

Lemma top_operators_bounds_witness :
  exists r, In (Ok r) (iter_rows [] zf_ties "All") /\
            r <> map Some columns /\
            column (column_index (map Some columns)) r "name" = Ok (Some "C").
Proof.
  destruct (@top_operators_bounds [] zf_ties (map Some columns)
              [Some "C"; Some "A"; Some "B"]) as (_ & _ & H).
  - vm_compute. reflexivity.
  - apply H. now left.
Defined.

Module CategoryFacts.

Lemma operator_trailing_unfold SHARED zf header operators hd rows :
  iter_rows SHARED zf "All" = map Ok (hd :: rows) ->
  operator_trailing SHARED zf header operators =
  (xs <- Py.comprehension (read_selected (column_index header) operators) rows ;;
   Py.for_in operators (fun op trailing =>
       t <- category_series (fold_left route xs []) op ;;
       Ok (Dict.set trailing op t)) []).
Proof.
  intros Hrows. unfold operator_trailing. rewrite Hrows.
  cbn [map Py.next bind].
  rewrite (@MonthlyFacts.for_each_rows _ _ _
             (read_selected (column_index header) operators) route).
  2:{ intros r s. unfold read_selected.
      destruct (column (column_index header) r "name") as [n|e]; cbn [bind];
        [|reflexivity].
      destruct (negb (existsb (Py.eqb n) operators)); [reflexivity|].
      destruct (read_row (column_index header) r) as [[ym [c a]]|e];
        reflexivity. }
  destruct (Py.comprehension _ rows) as [xs|e]; cbn [bind]; [|reflexivity].
  apply LoopFacts.for_in_ext. intros op st. unfold category_series.
  destruct (Py.comprehension _ (Dict.get_default [] (fold_left route xs []) op));
    reflexivity.
Qed.

Lemma route_fold xs : forall st,
  fold_left route xs st =
  fold_left (accum_step (accum_step acc_add acc0) []) (selected_records xs) st.
Proof.
  induction xs as [|[[name [ym ca]]|] xs IH]; intros st; cbn [fold_left selected_records flat_map app].
  - reflexivity.
  - rewrite IH. destruct ca as [c a]. reflexivity.
  - apply IH.
Qed.

Lemma category_stats (recs : list (option string * (period * (float * float))))
  (op : option string) :
  Dict.get_default []
    (fold_left (accum_step (accum_step acc_add acc0) []) recs []) op =
  fold_left (accum_step acc_add acc0) (values_of op recs) [].
Proof.
  unfold Dict.get_default. rewrite AccumFacts.get_fold.
  destruct (existsb (Py.eqb op) (map fst recs)) eqn:E; [reflexivity|].
  now rewrite (AccumFacts.values_of_absent _ _ E).
Qed.

Lemma series_in (recs : list (period * (float * float))) ym d :
  In (ym, d) (fold_left (accum_step acc_add acc0) recs []) ->
  In ym (map fst recs) /\
  ws d = weighted_sum ym recs /\ cnt d = weight_total ym recs.
Proof.
  intros Hin.
  assert (Hnd : NoDup (Dict.keys (fold_left (accum_step acc_add acc0) recs []))).
  { rewrite AccumFacts.keys_fold. apply AccumFacts.fold_add_key_NoDup. constructor. }
  assert (Hk : In ym (map fst recs)).
  { apply (in_map fst) in Hin. cbn [fst] in Hin.
    change (In ym (Dict.keys (fold_left (accum_step acc_add acc0) recs []))) in Hin.
    rewrite AccumFacts.keys_fold, AccumFacts.fold_add_key_In in Hin.
    destruct Hin as [[]|Hin]. exact Hin. }
  split; [exact Hk|].
  apply (DictFacts.In_get _ _ _ Hnd) in Hin.
  rewrite AccumFacts.get_fold in Hin.
  assert (existsb (Py.eqb ym) (map fst recs) = true) as E
    by now apply DictFacts.existsb_eqb_In.
  rewrite E in Hin.
  change (Dict.get_default acc0 [] ym) with acc0 in Hin.
  assert (Hd : d = fold_left acc_add (values_of ym recs) acc0) by congruence.
  subst d. unfold weighted_sum, weight_total.
  now rewrite MonthlyFacts.ws_fold, MonthlyFacts.cnt_fold.
Qed.

Lemma div_comprehension (stats : list (period * acc)) :
  (Forall (fun kd => PrimFloat.eqb (cnt (snd kd)) 0 = false) stats /\
   Py.comprehension (fun '(ym, d) =>
       v <- Py.truediv (ws d) (cnt d) ;; Ok (ym, v)) stats =
   Ok (map (fun kd => (fst kd, ws (snd kd) / cnt (snd kd))) stats)) \/
  (Exists (fun kd => PrimFloat.eqb (cnt (snd kd)) 0 = true) stats /\
   Py.comprehension (fun '(ym, d) =>
       v <- Py.truediv (ws d) (cnt d) ;; Ok (ym, v)) stats =
   Raise ZeroDivisionError).
Proof.
  induction stats as [|[ym d] stats IH]; cbn [Py.comprehension map].
  - left. split; [constructor|reflexivity].
  - unfold Py.truediv at 1 3.
    destruct (PrimFloat.eqb (cnt d) 0) eqn:E; cbn [bind].
    + right. split; [now left|reflexivity].
    + destruct IH as [(Hall & ->)|(Hex & ->)]; cbn [bind fst snd].
      * left. split; [now constructor|reflexivity].
      * right. split; [now right|reflexivity].
Qed.
End CategoryFacts.

Module ResultFacts.
Section ResultFacts.
Context {K V : Type} `{Py.Eq K}.
Variable G : K -> result V.

Let body := fun (op : K) (tr : list (K * V)) =>
  t <- G op ;; Ok (Dict.set tr op t).

Lemma for_in_dict (ops : list K) : forall tr0 res,
  Py.for_in ops body tr0 = Ok res ->
  Dict.keys res = fold_left Dict.add_key ops (Dict.keys tr0) /\
  (forall op, In op ops -> exists t, G op = Ok t /\ Dict.get res op = Some t) /\
  (forall op, ~ In op ops -> Dict.get res op = Dict.get tr0 op).
Proof.
  induction ops as [|a ops IH]; intros tr0 res; cbn [Py.for_in fold_left].
  - intros [= <-]. split; [reflexivity|]. split; [intros op []|reflexivity].
  - unfold body at 1. destruct (G a) as [t|e] eqn:Ea; cbn [bind]; [|discriminate].
    intros Hfor. destruct (IH _ _ Hfor) as (Hk & Hin & Hout).
    split; [now rewrite Hk, DictFacts.keys_set|]. split.
    + intros op Hop.
      destruct (in_dec (fun x y => reflect_dec _ _ (Py.eqb_spec x y)) op ops)
        as [Hl|Hl]; [now apply Hin|].
      destruct Hop as [<-|Hop]; [|contradiction].
      exists t. split; [assumption|].
      rewrite (Hout a Hl). apply DictFacts.get_set_eq.
    + intros op Hop. rewrite Hout by (intros Hl; apply Hop; now right).
      apply DictFacts.get_set_neq. intros ->. apply Hop. now left.
Qed.

Lemma for_in_dict_total (ops : list K) :
  (forall op, In op ops -> exists t, G op = Ok t) ->
  forall tr0, exists res, Py.for_in ops body tr0 = Ok res.
Proof.
  induction ops as [|a ops IH]; intros HG tr0; cbn [Py.for_in]; [eauto|].
  unfold body at 1. destruct (HG a) as (t & ->); [now left|]. cbn [bind].
  apply IH. intros op Hop. apply HG. now right.
Qed.

Lemma for_in_dict_raise (e0 : exn) (ops : list K) :
  (forall op, In op ops -> G op = Raise e0 \/ exists t, G op = Ok t) ->
  (exists op, In op ops /\ G op = Raise e0) ->
  forall tr0, Py.for_in ops body tr0 = Raise e0.
Proof.
  induction ops as [|a ops IH]; intros HG (op & Hop & Hr) tr0; [destruct Hop|].
  cbn [Py.for_in]. unfold body at 1.
  destruct (HG a) as [->|(t & Ht)]; [now left|reflexivity|].
  rewrite Ht. cbn [bind]. apply IH.
  - intros op' Hop'. apply HG. now right.
  - destruct Hop as [<-|Hop]; [congruence|eauto].
Qed.
End ResultFacts.
End ResultFacts.

Module CategoryResultFacts.

Lemma category_series_cases
  (recs : list (option string * (period * (float * float))))
  (op : option string) :
  let stats := fold_left (accum_step (accum_step acc_add acc0) []) recs [] in
  let recs_op := values_of op recs in
  ((forall p, In p (map fst recs_op) ->
      PrimFloat.eqb (weight_total p recs_op) 0 = false) /\
   exists series t,
     Dict.keys series = first_seen (map fst recs_op) /\
     (forall p, In p (map fst recs_op) ->
        Dict.get series p =
          Some (weighted_sum p recs_op / weight_total p recs_op)) /\
     trailing_average series 12 = Ok t /\
     category_series stats op = Ok t) \/
  ((exists p, In p (map fst recs_op) /\
      PrimFloat.eqb (weight_total p recs_op) 0 = true) /\
   category_series stats op = Raise ZeroDivisionError).
Proof.
  intros stats recs_op. unfold category_series, stats.
  rewrite CategoryFacts.category_stats. fold recs_op.
  set (inner := fold_left (accum_step acc_add acc0) recs_op []).
  destruct (CategoryFacts.div_comprehension inner) as [(Hall & ->)|(Hex & ->)];
    cbn [bind].
  - left. rewrite Forall_forall in Hall.
    assert (Hkeys : Dict.keys inner = first_seen (map fst recs_op)).
    { unfold inner. now rewrite AccumFacts.keys_fold. }
    assert (Hnd : NoDup (Dict.keys inner)).
    { unfold inner. rewrite AccumFacts.keys_fold.
      apply AccumFacts.fold_add_key_NoDup. constructor. }
    assert (Hget : forall p, In p (map fst recs_op) ->
              exists d, In (p, d) inner).
    { intros p Hp.
      assert (Hk : In p (Dict.keys inner)).
      { rewrite Hkeys. unfold first_seen.
        rewrite AccumFacts.fold_add_key_In. now right. }
      unfold Dict.keys in Hk. apply in_map_iff in Hk as ([p' d] & E & Hin).
      cbn [fst] in E. subst p'. eauto. }
    split.
    + intros p Hp. destruct (Hget p Hp) as (d & Hd).
      destruct (CategoryFacts.series_in _ _ _ Hd) as (_ & _ & <-).
      apply (Hall _ Hd).
    + set (series := map (fun kd => (fst kd, ws (snd kd) / cnt (snd kd))) inner).
      assert (Hks : Dict.keys series = Dict.keys inner)
        by apply (MonthlyFacts.keys_map_values (fun d => ws d / cnt d)).
      destruct (trailing_average series 12) as [t|e] eqn:Et.
      * exists series, t. split; [now rewrite Hks|].
        split; [|split; [exact Et|reflexivity]].
        intros p Hp. destruct (Hget p Hp) as (d & Hd).
        unfold series.
        rewrite (MonthlyFacts.get_map_values (fun d => ws d / cnt d)).
        rewrite (DictFacts.In_get _ _ _ Hnd Hd). cbn [option_map].
        destruct (CategoryFacts.series_in _ _ _ Hd) as (_ & -> & ->).
        reflexivity.
      * exfalso.
        assert (Hnds : NoDup (Dict.keys series)) by now rewrite Hks.
        pose proof (@TrailingFacts.trailing_average_exact series 12 Hnds
                      ltac:(lia)) as Hex.
        cbv zeta in Hex. congruence.
  - right. split; [|reflexivity].
    apply Exists_exists in Hex as ([p d] & Hd & Hz). cbn [snd] in Hz.
    destruct (CategoryFacts.series_in _ _ _ Hd) as (Hp & _ & Hc).
    exists p. split; [assumption|]. now rewrite <- Hc.
Qed.
End CategoryResultFacts.

Module OperatorFacts.

Lemma operator_trailing_entries (SHARED : list string) (zf : archive)
  (header : row) (operators : list (option string))
  (res : list (option string * list (period * float))) :
  operator_trailing SHARED zf header operators = Ok res ->
  Dict.keys res = first_seen operators /\
  (forall op, In op operators <-> In op (Dict.keys res)) /\
  (forall op, In op operators -> exists t, Dict.get res op = Some t).
Proof.
  unfold operator_trailing. cbv zeta.
  destruct (Py.next (iter_rows SHARED zf "All")) as [[hd rows]|e];
    cbn [bind]; [|discriminate].
  destruct (Py.for_each rows _ []) as [stats|e]; cbn [bind]; [|discriminate].
  erewrite LoopFacts.for_in_ext.
  2:{ intros op st.
      instantiate (1 := fun op tr =>
                          t <- category_series stats op ;; Ok (Dict.set tr op t)).
      cbv beta. unfold category_series.
      destruct (Py.comprehension _ (Dict.get_default [] stats op)); reflexivity. }
  intros Hfor.
  destruct (ResultFacts.for_in_dict _ _ _ Hfor) as (Hk & Hin & _).
  split; [exact Hk|]. split.
  - intros op. rewrite Hk. unfold first_seen.
    rewrite AccumFacts.fold_add_key_In. simpl. tauto.
  - intros op Hop. destruct (Hin op Hop) as (t & _ & Ht). eauto.
Qed.
End OperatorFacts.

(** X9.  Whenever [operator_trailing] returns, its result has one entry for
    every requested operator, in the order of their first occurrence in the
    request, and no other entry. *)
Theorem operator_trailing_keys (SHARED : list string) (zf : archive)
  (header : row) (operators : list (option string))
  (res : list (option string * list (period * float))) :
  operator_trailing SHARED zf header operators = Ok res ->
  Dict.keys res = first_seen operators /\
  (forall op, In op operators <-> In op (Dict.keys res)) /\
  (forall op, In op operators -> exists t, Dict.get res op = Some t).
Proof. apply OperatorFacts.operator_trailing_entries. Qed.

Lemma operator_trailing_keys_witness :
  exists res,
    operator_trailing [] zf_categories (map Some columns)
      [Some "A"; Some "Z"; Some "A"] = Ok res /\
    Dict.keys res = [Some "A"; Some "Z"].
Proof.
  assert (H : operator_trailing [] zf_categories (map Some columns)
                [Some "A"; Some "Z"; Some "A"] =
              Ok [(Some "A", [((2024, 1)%Z, 8)]); (Some "Z", [])])
    by (vm_compute; reflexivity).
  eexists. split; [exact H|].
  exact (proj1 (operator_trailing_keys _ _ _ _ H)).
Defined.

(** X10.  When the rows after the first all read and no selected category
    has a period of zero total weight, [operator_trailing] returns, for every
    requested operator, the trailing average over twelve months of the
    series of its weighted averages: one value weighted_sum / weight_total
    for every period of the rows of that operator. *)
Theorem operator_trailing_per_category (SHARED : list string) (zf : archive)
  (header : row) (operators : list (option string)) (hd : row)
  (rows : list row)
  (xs : list (option (option string * (period * (float * float))))) :
  iter_rows SHARED zf "All" = map Ok (hd :: rows) ->
  Py.comprehension (read_selected (column_index header) operators) rows
    = Ok xs ->
  (forall op p, In op operators ->
     In p (map fst (values_of op (selected_records xs))) ->
     PrimFloat.eqb (weight_total p (values_of op (selected_records xs))) 0
       = false) ->
  exists res,
    operator_trailing SHARED zf header operators = Ok res /\
    forall op, In op operators ->
      exists series t,
        Dict.keys series =
          first_seen (map fst (values_of op (selected_records xs))) /\
        (forall p, In p (map fst (values_of op (selected_records xs))) ->
           Dict.get series p =
             Some (weighted_sum p (values_of op (selected_records xs))
                   / weight_total p (values_of op (selected_records xs)))) /\
        trailing_average series 12 = Ok t /\
        Dict.get res op = Some t.
Proof.
  intros Hrows Hxs Hnz.
  erewrite CategoryFacts.operator_trailing_unfold by exact Hrows. rewrite Hxs.
  cbn [bind]. rewrite CategoryFacts.route_fold.
  set (recs := selected_records xs) in *.
  set (stats := fold_left (accum_step (accum_step acc_add acc0) []) recs []).
  assert (HG : forall op, In op operators ->
             exists series t,
               Dict.keys series = first_seen (map fst (values_of op recs)) /\
               (forall p, In p (map fst (values_of op recs)) ->
                  Dict.get series p =
                    Some (weighted_sum p (values_of op recs)
                          / weight_total p (values_of op recs))) /\
               trailing_average series 12 = Ok t /\
               category_series stats op = Ok t).
  { intros op Hop.
    destruct (CategoryResultFacts.category_series_cases recs op)
      as [(_ & H)|((p & Hp & Hz) & _)]; [exact H|].
    rewrite (Hnz op p Hop Hp) in Hz. discriminate. }
  destruct (@ResultFacts.for_in_dict_total _ _ _ (category_series stats) operators)
    with (tr0 := @nil (option string * list (period * float))) as (res & Hres).
  { intros op Hop. destruct (HG op Hop) as (_ & t & _ & _ & _ & Ht). eauto. }
  exists res. split; [exact Hres|].
  intros op Hop. destruct (HG op Hop) as (series & t & Hk & Hv & Ht & Hc).
  exists series, t. repeat split; try assumption.
  destruct (ResultFacts.for_in_dict _ _ _ Hres) as (_ & Hin & _).
  destruct (Hin op Hop) as (t' & Ht' & Hget). congruence.
Qed.

Lemma operator_trailing_per_category_witness :
  exists res,
    operator_trailing [] zf_categories (map Some columns)
      [Some "A"; Some "B"] = Ok res.
Proof.
  destruct (@operator_trailing_per_category [] zf_categories
              (map Some columns) [Some "A"; Some "B"] (map Some columns)
              [map Some ["2024"; "1"; "2"; "10"; "A"; "5"];
               map Some ["n/a"; "n/a"; "n/a"; "n/a"; "C"; "n/a"];
               map Some ["2024"; "2"; "1"; "4"; "B"; "5"];
               map Some ["2024"; "1"; "1"; "4"; "A"; "5"]]
              [Some (Some "A", ((2024, 1)%Z, (2, 10))); None;
               Some (Some "B", ((2024, 2)%Z, (1, 4)));
               Some (Some "A", ((2024, 1)%Z, (1, 4)))])
    as (res & Hres & _).
  - vm_compute. reflexivity.
  - vm_compute. reflexivity.
  - intros op p [<-|[<-|[]]] Hp; simpl in Hp;
      repeat (destruct Hp as [<-|Hp]; [vm_compute; reflexivity|]);
      destruct Hp.
  - exists res. exact Hres.
Defined.

(** X11.  When the rows after the first all read and some selected category
    has a period whose total weight is zero, [operator_trailing] raises
    [ZeroDivisionError]. *)
Theorem operator_trailing_zero_division (SHARED : list string) (zf : archive)
  (header : row) (operators : list (option string)) (hd : row)
  (rows : list row)
  (xs : list (option (option string * (period * (float * float))))) :
  iter_rows SHARED zf "All" = map Ok (hd :: rows) ->
  Py.comprehension (read_selected (column_index header) operators) rows
    = Ok xs ->
  (exists op p, In op operators /\
     In p (map fst (values_of op (selected_records xs))) /\
     PrimFloat.eqb (weight_total p (values_of op (selected_records xs))) 0
       = true) ->
  operator_trailing SHARED zf header operators = Raise ZeroDivisionError.
Proof.
  intros Hrows Hxs (op & p & Hop & Hp & Hz).
  erewrite CategoryFacts.operator_trailing_unfold by exact Hrows. rewrite Hxs.
  cbn [bind]. rewrite CategoryFacts.route_fold.
  apply ResultFacts.for_in_dict_raise.
  - intros op' _.
    destruct (CategoryResultFacts.category_series_cases (selected_records xs) op')
      as [(_ & _ & t & _ & _ & _ & Ht)|(_ & Hr)]; [right; eauto|now left].
  - exists op. split; [assumption|].
    destruct (CategoryResultFacts.category_series_cases (selected_records xs) op)
      as [(Hall & _)|(_ & Hr)]; [|exact Hr].
    rewrite (Hall p Hp) in Hz. discriminate.
Qed.

Lemma operator_trailing_zero_division_witness :
  operator_trailing [] zf_zero_weight (map Some columns) [Some "A"] =
    Raise ZeroDivisionError.
Proof.
  apply (@operator_trailing_zero_division [] zf_zero_weight (map Some columns)
           [Some "A"] (map Some columns)
           [map Some ["2024"; "1"; "0"; "10"; "A"; "5"]]
           [Some (Some "A", ((2024, 1)%Z, (0, 10)))]).
  - vm_compute. reflexivity.
  - vm_compute. reflexivity.
  - exists (Some "A"), (2024, 1)%Z. split; [now left|].
    split; [now left|]. vm_compute. reflexivity.
Defined.

(** X12.  [operator_trailing] skips the rows whose category is not
    requested before it reads their numbers: two sheets whose data rows differ
    only by such rows give the same result, also when those rows hold text
    that is no number. *)
Theorem operator_trailing_ignores_unselected (SHARED : list string)
  (zf zf' : archive) (header hd hd' : row)
  (operators : list (option string)) (rest : list (result row)) :
  iter_rows SHARED zf "All" = Ok hd :: rest ->
  iter_rows SHARED zf' "All" =
    Ok hd' :: drop_unselected (column_index header) operators rest ->
  operator_trailing SHARED zf' header operators =
  operator_trailing SHARED zf header operators.
Proof.
  intros Hrows Hrows'. unfold operator_trailing. rewrite Hrows, Hrows'.
  cbn [Py.next bind]. unfold drop_unselected.
  rewrite (LoopFacts.for_each_filter_skip
             (fun r => match column (column_index header) r "name" with
                       | Ok name => negb (existsb (Py.eqb name) operators)
                       | Raise _ => false
                       end)).
  - reflexivity.
  - intros r st. cbv beta.
    destruct (column (column_index header) r "name") as [n|e];
      [|discriminate].
    intros Hs. cbn [bind]. now rewrite Hs.
Qed.

Lemma operator_trailing_ignores_unselected_witness :
  operator_trailing [] zf_categories_selected (map Some columns)
    [Some "A"; Some "B"] =
  operator_trailing [] zf_categories (map Some columns) [Some "A"; Some "B"].
Proof.
  apply (@operator_trailing_ignores_unselected [] zf_categories
           zf_categories_selected (map Some columns) (map Some columns)
           (map Some columns) [Some "A"; Some "B"]
           [Ok (map Some ["2024"; "1"; "2"; "10"; "A"; "5"]);
            Ok (map Some ["n/a"; "n/a"; "n/a"; "n/a"; "C"; "n/a"]);
            Ok (map Some ["2024"; "2"; "1"; "4"; "B"; "5"]);
            Ok (map Some ["2024"; "1"; "1"; "4"; "A"; "5"])]).
  - vm_compute. reflexivity.
  - vm_compute. reflexivity.
Defined.

Module MainFacts.

Lemma nonlive_month_loop (all_month live_month : list (period * float))
  (ks : list period) : forall done,
  (forall k, In k ks -> In k (Dict.keys all_month)) ->
  NoDup (Dict.keys done ++ ks) ->
  Py.for_in ks (fun ym d =>
      a <- Dict.getitem all_month ym ;;
      Ok (Dict.set d ym (a - Dict.get_default 0 live_month ym))) done =
  Ok (done ++ map (fun ym => (ym, Dict.get_default 0 all_month ym
                                  - Dict.get_default 0 live_month ym)) ks).
Proof.
  induction ks as [|k ks IH]; intros done Hin Hnd; cbn [Py.for_in map].
  - now rewrite app_nil_r.
  - rewrite (DictFacts.getitem_keys 0) by (apply Hin; now left). cbn [bind].
    rewrite DictFacts.set_new.
    2:{ apply NoDup_remove_2 in Hnd. intros Hk. apply Hnd.
        apply in_or_app. now left. }
    rewrite IH.
    + now rewrite <- app_assoc.
    + intros k' Hk'. apply Hin. now right.
    + unfold Dict.keys. rewrite map_app. cbn [map fst].
      rewrite <- app_assoc. exact Hnd.
Qed.

Lemma monthly_keys_NoDup SHARED zf sheet m :
  monthly_weighted_avg SHARED zf sheet = Ok m -> NoDup (Dict.keys m).
Proof.
  unfold monthly_weighted_avg. cbv zeta.
  destruct (Py.next (iter_rows SHARED zf sheet)) as [[header rows]|e];
    cbn [bind]; [|discriminate].
  destruct (Py.for_each rows _ []) as [stats|e] eqn:Hfor; cbn [bind];
    [|discriminate].
  rewrite MonthlyFacts.finalize_comprehension. intros Hm.
  assert (Hm' : map (fun kd => (fst kd, finalize (snd kd))) stats = m)
    by congruence.
  subst m. rewrite (MonthlyFacts.keys_map_values finalize).
  revert Hfor.
  apply (@LoopFacts.for_each_invariant row _
           (fun stats => NoDup (Dict.keys stats)) (fun _ => True)).
  - auto.
  - intros r st st' _ Hnd.
    destruct (read_row (column_index header) r) as [[ym [c a]]|e];
      cbn [bind]; [|discriminate].
    intros Hst. assert (Hst' : accumulate st ym c a = st') by congruence.
    subst st'. unfold accumulate. rewrite DictFacts.keys_set.
    now apply DictFacts.add_key_NoDup.
  - constructor.
Qed.

Lemma trailing_average_Ok (series : list (period * float)) :
  NoDup (Dict.keys series) ->
  exists t, trailing_average series 12 = Ok t /\
            Dict.keys t = Py.sorted Py.pair_ltb false (Dict.keys series).
Proof.
  intros Hnd.
  pose proof (@TrailingFacts.trailing_average_exact series 12 Hnd ltac:(lia))
    as Hex. cbv zeta in Hex.
  eexists. split; [exact Hex|].
  unfold Dict.keys at 1. apply ListFacts.map_fst_combine.
  now rewrite length_map, length_seq.
Qed.

Lemma getitem_comprehension {V X} (dflt : V) (d : list (period * V))
  (f : period -> V -> X) (ks : list period) :
  (forall k, In k ks -> In k (Dict.keys d)) ->
  Py.comprehension (fun k => v <- Dict.getitem d k ;; Ok (f k v)) ks =
  Ok (map (fun k => f k (Dict.get_default dflt d k)) ks).
Proof.
  induction ks as [|k ks IH]; intros Hin; cbn [Py.comprehension map];
    [reflexivity|].
  rewrite (DictFacts.getitem_keys dflt) by (apply Hin; now left). cbn [bind].
  rewrite IH by (intros; apply Hin; now right). reflexivity.
Qed.

Lemma last3_length {A} (l : list A) : length (last3 l) = Nat.min 3 (length l).
Proof. unfold last3. rewrite length_skipn. lia. Qed.

Lemma last3_In {A} (x : A) (l : list A) : In x (last3 l) -> In x l.
Proof.
  unfold last3. intros Hin. rewrite <- (firstn_skipn (length l - 3) l).
  apply in_or_app. now right.
Qed.
End MainFacts.

Module MainResultFacts.

Lemma nonlive_month_exact (all_month live_month : list (period * float)) :
  NoDup (Dict.keys all_month) ->
  nonlive_month all_month live_month =
  Ok (map (fun kv => (fst kv, snd kv - Dict.get_default 0 live_month (fst kv)))
        all_month).
Proof.
  intros Hnd. unfold nonlive_month.
  rewrite MainFacts.nonlive_month_loop; [|auto|exact Hnd].
  cbn [app]. unfold Dict.keys. rewrite map_map. f_equal.
  apply map_ext_in. intros [k v] Hin. cbn [fst snd].
  unfold Dict.get_default at 1. now rewrite (@DictFacts.In_get _ _ _ all_month k v Hnd Hin).
Qed.
Lemma operators_report (op_trailing : list (option string * list (period * float)))
  (ops : list (option string)) :
  (forall op, In op ops -> exists t, Dict.get op_trailing op = Some t) ->
  exists report,
    Py.comprehension (fun op =>
        series <- Dict.getitem op_trailing op ;;
        months <- Py.comprehension (fun ym =>
                      v <- Dict.getitem series ym ;; Ok (ym, v))
                    (last3 (Py.sorted Py.pair_ltb false (Dict.keys series))) ;;
        Ok (op, months)) ops = Ok report /\
    map fst report = ops /\
    forall op months, In (op, months) report ->
      exists series, Dict.get op_trailing op = Some series /\
                     (length months <= 3)%nat /\
                     forall ym v, In (ym, v) months -> In (ym, v) series.
Proof.
  intros Hent.
  induction ops as [|op ops IH]; cbn [Py.comprehension].
  - exists []. split; [reflexivity|]. split; [reflexivity|]. intros ? ? [].
  - destruct (Hent op) as (series & Hs); [now left|].
    unfold Dict.getitem at 1. rewrite Hs. cbn [bind].
    rewrite (@MainFacts.getitem_comprehension _ _ 0 series (fun ym v => (ym, v))).
    2:{ intros k Hk. apply MainFacts.last3_In in Hk.
        eapply Permutation_in; [apply SortFacts.sorted_perm|exact Hk]. }
    cbn [bind].
    destruct IH as (report & -> & Hk & Hin); [intros; apply Hent; now right|].
    cbn [bind]. eexists. split; [reflexivity|]. split; [cbn [map fst]; congruence|].
    intros op' months [E|Hin'].
    + assert (op' = op) by congruence. subst op'.
      assert (Hm : months = map (fun ym => (ym, Dict.get_default 0 series ym))
                     (last3 (Py.sorted Py.pair_ltb false (Dict.keys series))))
        by congruence.
      exists series. split; [assumption|]. split.
      * rewrite Hm, length_map, MainFacts.last3_length. lia.
      * intros ym v Hv. rewrite Hm in Hv. apply in_map_iff in Hv as (k & E' & Hk0).
        assert (ym = k /\ v = Dict.get_default 0 series k) as (-> & ->)
          by (split; congruence).
        apply MainFacts.last3_In in Hk0.
        eapply Permutation_in in Hk0; [|apply SortFacts.sorted_perm].
        unfold Dict.get_default.
        destruct (Dict.get series k) as [x|] eqn:Eg.
        -- now apply DictFacts.get_In.
        -- apply DictFacts.get_None_keys in Eg. contradiction.
    + now apply Hin.
Qed.
End MainResultFacts.

(** X13.  The mapping of line 96 has the periods of the All mapping, in its
    order; the value of a period is its All value minus its Live value, or
    minus 0.0 when Live lacks the period; a period that only Live has does
    not appear. *)
Theorem nonlive_month_values (all_month live_month : list (period * float)) :
  NoDup (Dict.keys all_month) ->
  exists nl,
    nonlive_month all_month live_month = Ok nl /\
    Dict.keys nl = Dict.keys all_month /\
    forall ym a, Dict.get all_month ym = Some a ->
      Dict.get nl ym = Some (a - Dict.get_default 0 live_month ym).
Proof.
  intros Hnd. rewrite MainResultFacts.nonlive_month_exact by exact Hnd.
  eexists. split; [reflexivity|]. split.
  - unfold Dict.keys. rewrite map_map. reflexivity.
  - intros ym a Hget. apply DictFacts.In_get.
    + unfold Dict.keys. rewrite map_map. exact Hnd.
    + apply DictFacts.get_In in Hget.
      apply (in_map (fun kv => (fst kv, snd kv
                                - Dict.get_default 0 live_month (fst kv))))
        in Hget. exact Hget.
Qed.

Lemma nonlive_month_values_witness :
  exists nl,
    nonlive_month [((2024, 1)%Z, 10); ((2024, 2)%Z, 6)] [((2024, 1)%Z, 4)]
      = Ok nl /\
    Dict.get nl (2024, 2)%Z = Some 6.
Proof.
  destruct (@nonlive_month_values [((2024, 1)%Z, 10); ((2024, 2)%Z, 6)]
              [((2024, 1)%Z, 4)]) as (nl & Hnl & _ & Hv).
  - repeat constructor; simpl; intuition congruence.
  - exists nl. split; [exact Hnl|].
    rewrite (Hv (2024, 2)%Z 6 eq_refl). vm_compute. reflexivity.
Defined.

(** X14.  Once both monthly aggregations have returned, the first part of
    the main block runs to its end without an exception: the three trailing
    averages are computed, the non-live one has the periods of the All one,
    and the report holds the last three periods of All (fewer when All has
    fewer) in ascending order. *)
Theorem main_months_total (SHARED : list string) (zf : archive)
  (all_month live_month : list (period * float)) :
  monthly_weighted_avg SHARED zf "All" = Ok all_month ->
  monthly_weighted_avg SHARED zf "Live" = Ok live_month ->
  exists nl all_trail non_trail report,
    nonlive_month all_month live_month = Ok nl /\
    trailing_average all_month 12 = Ok all_trail /\
    trailing_average nl 12 = Ok non_trail /\
    Dict.keys non_trail = Dict.keys all_trail /\
    main_months SHARED zf = Ok report /\
    map fst report = last3 (Dict.keys all_trail) /\
    length report = Nat.min 3 (length all_month).
Proof.
  intros Hall Hlive. unfold main_months. rewrite Hall, Hlive. cbn [bind].
  pose proof (@MainFacts.monthly_keys_NoDup _ _ _ _ Hall) as Hnd.
  pose proof (@MainFacts.monthly_keys_NoDup _ _ _ _ Hlive) as Hndl.
  rewrite MainResultFacts.nonlive_month_exact by exact Hnd. cbn [bind].
  set (nl := map (fun kv => (fst kv, snd kv
                             - Dict.get_default 0 live_month (fst kv)))
               all_month).
  assert (Hknl : Dict.keys nl = Dict.keys all_month)
    by (unfold nl, Dict.keys; now rewrite map_map).
  destruct (@MainFacts.trailing_average_Ok all_month Hnd) as (at_ & Hat & Hkat).
  destruct (@MainFacts.trailing_average_Ok live_month Hndl) as (lt & Hlt & _).
  destruct (@MainFacts.trailing_average_Ok nl) as (nt & Hnt & Hknt);
    [now rewrite Hknl|].
  rewrite Hat, Hlt, Hnt. cbn [bind].
  assert (Hsorted : Py.sorted Py.pair_ltb false (Dict.keys at_) = Dict.keys at_).
  { rewrite Hkat at 2. apply TrailingOrderFacts.sorted_keys_perm; [exact Hnd|].
    rewrite Hkat. apply SortFacts.sorted_perm. }
  rewrite Hsorted.
  rewrite (@MainFacts.getitem_comprehension _ _ 0 at_
             (fun ym a => (ym, (a, Dict.get_default 0 lt ym,
                                Dict.get_default 0 nt ym)))).
  2:{ intros k Hk. eapply MainFacts.last3_In; eauto. }
  exists nl, at_, nt. eexists.
  split; [reflexivity|]. split; [reflexivity|]. split; [exact Hnt|].
  split; [now rewrite Hknt, Hknl, Hkat|].
  split; [reflexivity|]. split.
  - rewrite map_map. cbn [fst]. apply map_id.
  - rewrite length_map, MainFacts.last3_length, Hkat.
    rewrite (Permutation_length (SortFacts.sorted_perm _ _ _)).
    unfold Dict.keys. now rewrite length_map.
Qed.

Lemma main_months_total_witness :
  exists report,
    main_months [] zf_both = Ok report /\
    map fst report = [(2024, 1)%Z; (2024, 2)%Z].
Proof.
  destruct (@main_months_total [] zf_both
              [((2024, 2)%Z, 6); ((2024, 1)%Z, 10)] [((2024, 1)%Z, 4)])
    as (nl & at_ & nt & report & _ & Hat & _ & _ & Hrep & Hk & _).
  - vm_compute. reflexivity.
  - vm_compute. reflexivity.
  - exists report. split; [exact Hrep|]. rewrite Hk.
    vm_compute in Hat.
    assert (Hat' : at_ = [((2024, 1)%Z, 10); ((2024, 2)%Z, 8)]) by congruence.
    rewrite Hat'. reflexivity.
Defined.

Module MainJoinFacts.
Lemma join_none sep items : In None items -> Py.join sep items = Raise TypeError.
Proof.
  induction items as [|[s|] items IH]; intros Hin; simpl in *; try tauto.
  destruct Hin as [Hin|Hin]; [discriminate|].
  destruct items as [|o items]; [destruct Hin|].
  rewrite (IH Hin). reflexivity.
Qed.

Lemma join_total sep items :
  ~ In None items -> exists line, Py.join sep items = Ok line.
Proof.
  induction items as [|[s|] items IH]; intros Hin; simpl in *.
  - eauto.
  - destruct items as [|o items]; [eauto|].
    destruct IH as (line & ->); [tauto|]. simpl. eauto.
  - tauto.
Qed.
End MainJoinFacts.

(** X15.  The second part of the main block, after the header of the sheet
    All is read and the ranking has returned.  When a ranked category is
    [None], a cell without text, joining the names for line 113 raises
    [TypeError].  Otherwise, once the per-category aggregation has returned,
    the part runs to its end without an exception, and with it the main
    block when its first part has returned: the lookup of every top category
    in the result succeeds, and the report lists the top categories in their
    order, at most ten, each with at most three entries of its trailing
    series. *)
Theorem main_operators_total (SHARED : list string) (zf : archive)
  (header : row) (rest : list (result row))
  (top_ops : list (option string))
  (op_trailing : list (option string * list (period * float))) :
  iter_rows SHARED zf "All" = Ok header :: rest ->
  top_operators SHARED zf header = Ok top_ops ->
  (In None top_ops -> main_operators SHARED zf = Raise TypeError) /\
  (~ In None top_ops ->
   operator_trailing SHARED zf header top_ops = Ok op_trailing ->
   exists line report,
     Py.join ", " top_ops = Ok line /\
     main_operators SHARED zf = Ok (line, report) /\
     (forall months, main_months SHARED zf = Ok months ->
        main SHARED zf = Ok (months, (line, report))) /\
     map fst report = top_ops /\
     (length report <= 10)%nat /\
     forall op months, In (op, months) report ->
       exists series, Dict.get op_trailing op = Some series /\
                      (length months <= 3)%nat /\
                      forall ym v, In (ym, v) months -> In (ym, v) series).
Proof.
  intros Hrows Htop. split.
  - intros Hnone. unfold main_operators.
    rewrite Hrows. cbn [Py.next bind]. rewrite Htop. cbn [bind].
    rewrite (@MainJoinFacts.join_none ", " _ Hnone). reflexivity.
  - intros Hstr Htr.
    destruct (@MainJoinFacts.join_total ", " _ Hstr) as (line & Hline).
    destruct (@OperatorFacts.operator_trailing_entries _ _ _ _ _ Htr) as (_ & _ & Hent).
    destruct (@RankBoundFacts.top_operators_sources _ _ _ _ Htop) as (Hlen & _ & _).
    destruct (MainResultFacts.operators_report op_trailing top_ops Hent)
      as (report & Hr & Hk & Hin).
    assert (Hmain : main_operators SHARED zf = Ok (line, report)).
    { unfold main_operators.
      rewrite Hrows. cbn [Py.next bind]. rewrite Htop. cbn [bind].
      rewrite Hline. cbn [bind]. rewrite Htr. cbn [bind]. rewrite Hr. reflexivity. }
    exists line, report. split; [exact Hline|]. split; [exact Hmain|].
    split; [|split; [exact Hk|split; [|exact Hin]]].
    + intros months Hm. unfold main. rewrite Hm, Hmain. reflexivity.
    + rewrite <- (length_map fst), Hk. exact Hlen.
Qed.

(** On an archive with both sheets the main block runs to its end. *)
Lemma main_operators_total_witness :
  exists months report,
    main [] zf_both = Ok (months, ("A", report)) /\
    map fst months = [(2024, 1)%Z; (2024, 2)%Z] /\
    map fst report = [Some "A"].
Proof.
  destruct (@main_operators_total [] zf_both (map Some columns)
              [Ok (map Some ["2024"; "2"; "1"; "6"; "A"; "5"]);
               Ok (map Some ["2024"; "1"; "2"; "10"; "A"; "5"])]
              [Some "A"]
              [(Some "A", [((2024, 1)%Z, 10); ((2024, 2)%Z, 8)])])
    as (_ & H).
  - vm_compute. reflexivity.
  - vm_compute. reflexivity.
  - destruct H as (line & report & Hline & _ & Hmain & Hk & _).
    + simpl. intros [H|[]]. discriminate.
    + vm_compute. reflexivity.
    + assert (line = "A") as -> by (simpl in Hline; congruence).
      exists [((2024, 1)%Z, (10, 4, 6)); ((2024, 2)%Z, (8, 0, 6))], report.
      split; [apply Hmain; vm_compute; reflexivity|].
      split; [reflexivity|exact Hk].
Defined.
